(** * Pulse Network: the JNI bridge of the native inference back ends

    A shallow embedding of [llama_jni.cpp] and [whisper_jni.cpp].  Both
    translation units consist of JNI entry points that marshal their
    arguments, log, and hand back simulated values; each keeps its engine
    handle in file-level statics.

    The embedding follows the C++ text call by call.  What lies outside the
    two files (the JNI environment, logcat, libc's [rand], the file system)
    is collected in one record, [Runtime], that the entry points thread
    through a state monad together with their statics. *)

From Stdlib Require Import ZArith String Ascii List Lia.
From Stdlib Require Import DecimalString DecimalN DecimalFacts.
From stdpp Require Import base list.

Local Open Scope string_scope.
Local Open Scope Z_scope.

(** ** Values that cross the boundary *)

Module JNI.

(** [jfloat] is IEEE binary32.  The bridge never computes with floats beyond
    writing literals and dividing an integer by [100.0f], so a value is kept
    as the rational it is the rounding of: [F32 n d] is the binary32 nearest
    to [n/d].  [Indeterminate] is the content of storage that was allocated
    and not yet written ([new float[n]]). *)
Inductive jfloat : Type :=
| Indeterminate
| F32 (num : Z) (den : positive).

(** What [GetMethodID] hands back: the class, the member name and the
    descriptor it was asked for.  Resolution against the managed classes is
    the virtual machine's business and is not part of either file. *)
Record jmethodID : Type := MethodID {
  m_class : string;
  m_name : string;
  m_sig : string
}.

(** Managed values as the native side sees them.  An object is known by the
    constructor call that made it and a mutated object by the call that
    mutated it; the native code never looks inside either. *)
#[warnings="-register-all"] Inductive jvalue : Type :=
| JNull
| JInt (n : Z)
| JLong (n : Z)
| JFloat (f : jfloat)
| JString (utf : string)
| JStaleString (last_held : string)
| JObject (ctor : jmethodID) (args : list jvalue)
| JInvoked (receiver : jvalue) (method : jmethodID) (args : list jvalue)
| JObjectArray (elem_class : string) (elems : list jvalue)
| JFloatArray (elems : list jfloat).

Definition jobject := jvalue.
Definition jclass := string.
Definition jboolean := bool.
Definition JNI_TRUE : jboolean := true.
Definition JNI_FALSE : jboolean := false.

(** A [const char*] in native code: characters the native side owns (a
    literal, the buffer of a [std::string]) or a buffer borrowed from the
    virtual machine, known by its index in [buffers]. *)
Inductive cstr : Type :=
| Chars (s : string)
| Borrowed (id : nat).

Inductive payload : Type :=
| UTF (s : string)
| Floats (l : list jfloat).

Record buffer : Type := Buffer {
  held : payload;
  released : bool
}.

(** logcat lines are kept unformatted: priority, tag, format, arguments. *)
Inductive log_priority : Type := ANDROID_LOG_INFO | ANDROID_LOG_ERROR.

Inductive log_arg : Type :=
| ArgInt (n : Z)
| ArgFloat (f : jfloat)
| ArgStr (s : string).

Record log_line : Type := LogLine {
  priority : log_priority;
  tag : string;
  fmt : string;
  args : list log_arg
}.

(** Everything the entry points touch outside their own statics. *)
Record Runtime : Type := mkRuntime {
  buffers : list buffer;          (* handed out by Get...Chars / Get...Elements *)
  stale_reads : nat;              (* reads through a pointer after its release *)
  pending_exception : option string;
  logcat : list log_line;
  rand_calls : nat;               (* calls of libc rand() so far *)
  libc_rand : nat -> Z;           (* what the n-th call of rand() returns *)
  filesystem : string -> option string  (* readable files and their content *)
}.

Definition with_buffers (b : list buffer) (r : Runtime) : Runtime :=
  mkRuntime b (stale_reads r) (pending_exception r) (logcat r)
            (rand_calls r) (libc_rand r) (filesystem r).

Definition with_stale_reads (n : nat) (r : Runtime) : Runtime :=
  mkRuntime (buffers r) n (pending_exception r) (logcat r)
            (rand_calls r) (libc_rand r) (filesystem r).

Definition with_pending_exception (e : option string) (r : Runtime) : Runtime :=
  mkRuntime (buffers r) (stale_reads r) e (logcat r)
            (rand_calls r) (libc_rand r) (filesystem r).

Definition with_logcat (l : list log_line) (r : Runtime) : Runtime :=
  mkRuntime (buffers r) (stale_reads r) (pending_exception r) l
            (rand_calls r) (libc_rand r) (filesystem r).

Definition with_rand_calls (n : nat) (r : Runtime) : Runtime :=
  mkRuntime (buffers r) (stale_reads r) (pending_exception r) (logcat r)
            n (libc_rand r) (filesystem r).

(** A fresh process: nothing borrowed, nothing logged, nothing thrown. *)
Definition fresh (rnd : nat -> Z) (fs : string -> option string) : Runtime :=
  mkRuntime [] 0%nat None [] 0%nat rnd fs.

(** *** The monad of native code

    [G] is the type of the statics of the translation unit. *)
Record World (G : Type) : Type := mkWorld {
  runtime : Runtime;
  globals : G
}.
Arguments mkWorld {G} _ _.
Arguments runtime {G} _.
Arguments globals {G} _.

Definition Native (G A : Type) : Type := World G -> A * World G.

#[global] Instance Native_ret G : MRet (Native G) :=
  fun A a w => (a, w).
#[global] Instance Native_bind G : MBind (Native G) :=
  fun A B f m w => let '(a, w') := m w in f a w'.

Definition on_runtime {G A} (f : Runtime -> A * Runtime) : Native G A :=
  fun w => let '(a, r) := f (runtime w) in (a, mkWorld r (globals w)).

Definition get_global {G A} (proj : G -> A) : Native G A :=
  fun w => (proj (globals w), w).

Definition set_globals {G} (upd : G -> G) : Native G unit :=
  fun w => (tt, mkWorld (runtime w) (upd (globals w))).

(** [for (int i = 0; i < n; i++) body], the loop carrying the locals [acc]
    that the body assigns. *)
Fixpoint for_from {G A} (i count : nat) (body : nat -> A -> Native G A)
    (acc : A) : Native G A :=
  match count with
  | O => mret acc
  | S count' => acc' ← body i acc; for_from (S i) count' body acc'
  end.

Definition for_upto {G A} (n : nat) (body : nat -> A -> Native G A)
    (acc : A) : Native G A :=
  for_from 0 n body acc.

(** *** Strings *)

Definition mark_released (id : nat) (bs : list buffer) : list buffer :=
  match bs !! id with
  | Some b => <[id := Buffer (held b) true]> bs
  | None => bs
  end.

Definition GetStringUTFChars {G} (s : string) : Native G cstr :=
  on_runtime (fun r =>
    (Borrowed (length (buffers r)),
     with_buffers (buffers r ++ [Buffer (UTF s) false]) r)).

Definition ReleaseStringUTFChars {G} (s : string) (p : cstr) : Native G unit :=
  on_runtime (fun r =>
    match p with
    | Borrowed id => (tt, with_buffers (mark_released id (buffers r)) r)
    | Chars _ => (tt, r)
    end).

(** Reading the characters a [const char*] points to.  Reading a released
    buffer is undefined in C++; the model hands back the bytes the buffer
    held, says so in the [bool], and counts the read in [stale_reads]. *)
Definition read_chars (p : cstr) (r : Runtime) : string * bool * Runtime :=
  match p with
  | Chars s => (s, false, r)
  | Borrowed id =>
    match buffers r !! id with
    | Some (Buffer (UTF s) false) => (s, false, r)
    | Some (Buffer (UTF s) true) => (s, true, with_stale_reads (S (stale_reads r)) r)
    | _ => ("", true, with_stale_reads (S (stale_reads r)) r)
    end
  end.

Definition NewStringUTF {G} (p : cstr) : Native G jvalue :=
  on_runtime (fun r =>
    let '(s, stale, r') := read_chars p r in
    (if stale then JStaleString s else JString s, r')).

(** *** Arrays *)

Definition GetArrayLength {G} (a : list jfloat) : Native G Z :=
  mret (Z.of_nat (length a)).

Definition GetFloatArrayElements {G} (a : list jfloat) : Native G nat :=
  on_runtime (fun r =>
    (length (buffers r),
     with_buffers (buffers r ++ [Buffer (Floats a) false]) r)).

Definition ReleaseFloatArrayElements {G} (a : list jfloat) (id : nat)
    (mode : Z) : Native G unit :=
  on_runtime (fun r => (tt, with_buffers (mark_released id (buffers r)) r)).

Definition NewFloatArray {G} (n : nat) : Native G jvalue :=
  mret (JFloatArray (replicate n (F32 0 1))).

(** [SetFloatArrayRegion(a, start, len, buf)] copies [buf[0..len)] over
    [a[start..start+len)]; a region that does not fit leaves the array alone
    and raises [ArrayIndexOutOfBoundsException].  Elements of [buf] past its
    end are indeterminate. *)
Definition SetFloatArrayRegion {G} (a : jvalue) (start len : nat)
    (buf : list jfloat) : Native G jvalue :=
  on_runtime (fun r =>
    match a with
    | JFloatArray elems =>
      if (start + len <=? length elems)%nat
      then (JFloatArray (take start elems ++ resize len Indeterminate buf
                           ++ drop (start + len) elems), r)
      else (a, with_pending_exception
                 (Some "java/lang/ArrayIndexOutOfBoundsException") r)
    | _ => (a, r)
    end).

Definition NewObjectArray {G} (n : nat) (cls : jclass) (init : jvalue)
    : Native G jvalue :=
  mret (JObjectArray cls (replicate n init)).

Definition SetObjectArrayElement {G} (a : jvalue) (i : nat) (v : jvalue)
    : Native G jvalue :=
  on_runtime (fun r =>
    match a with
    | JObjectArray cls elems =>
      if (i <? length elems)%nat
      then (JObjectArray cls (<[i := v]> elems), r)
      else (a, with_pending_exception
                 (Some "java/lang/ArrayIndexOutOfBoundsException") r)
    | _ => (a, r)
    end).

(** *** Classes, constructors, methods

    The three calls below are kept as what the native code asks for: the
    class by its name, the member by class, name and descriptor, the object
    by its constructor and actual arguments.  How the virtual machine
    answers (a lookup or a construction can come back null with an error
    pending) is decided by managed classes that are in neither file, and
    neither file tests an answer; a [JObject] stands for the value of the
    [NewObject] call that is written there. *)

Definition FindClass {G} (name : string) : Native G jclass := mret name.

Definition GetMethodID {G} (cls : jclass) (name sig : string)
    : Native G jmethodID :=
  mret (MethodID cls name sig).

Definition NewObject {G} (cls : jclass) (ctor : jmethodID)
    (actuals : list jvalue) : Native G jvalue :=
  mret (JObject ctor actuals).

(** [CallBooleanMethod] changes the receiver on the managed heap; the
    native code goes on using the same reference, which the model rebinds
    to the receiver after the call. *)
Definition CallBooleanMethod {G} (receiver : jvalue) (m : jmethodID)
    (actuals : list jvalue) : Native G jvalue :=
  mret (JInvoked receiver m actuals).

(** *** logcat and libc *)

Definition LOG_TAG : string := "PulseNative".

Inductive log_actual : Type :=
| LInt (n : Z)
| LFloat (f : jfloat)
| LStr (p : cstr).

Fixpoint read_log_actuals (l : list log_actual) (r : Runtime)
    : list log_arg * Runtime :=
  match l with
  | [] => ([], r)
  | LInt n :: l' =>
    let '(l'', r') := read_log_actuals l' r in (ArgInt n :: l'', r')
  | LFloat f :: l' =>
    let '(l'', r') := read_log_actuals l' r in (ArgFloat f :: l'', r')
  | LStr p :: l' =>
    let '(s, _, r1) := read_chars p r in
    let '(l'', r') := read_log_actuals l' r1 in (ArgStr s :: l'', r')
  end.

Definition android_log_print {G} (p : log_priority) (t f : string)
    (actuals : list log_actual) : Native G unit :=
  on_runtime (fun r =>
    let '(l, r') := read_log_actuals actuals r in
    (tt, with_logcat (logcat r' ++ [LogLine p t f l]) r')).

Definition LOGI {G} (f : string) (actuals : list log_actual) : Native G unit :=
  android_log_print ANDROID_LOG_INFO LOG_TAG f actuals.

Definition rand {G} : Native G Z :=
  on_runtime (fun r =>
    (libc_rand r (rand_calls r), with_rand_calls (S (rand_calls r)) r)).

(** A stream opened for reading is the content still to be read; [None] is
    the null [FILE*] of a file that cannot be opened. *)
Definition fopen {G} (path mode : string) : Native G (option string) :=
  on_runtime (fun r => (filesystem r path, r)).

Definition fclose {G} (fp : string) : Native G unit := mret tt.

End JNI.

(** ** The libc calls of [nativeGetAvailableMemory]

    The functions below work on the content of a stream that is still to
    be read.  [long] is the 64-bit [long] of the LP64 Android targets. *)

Module Libc.

Definition LONG_MAX : Z := 2 ^ 63 - 1.
Definition LONG_MIN : Z := - 2 ^ 63.
Definition EOF : Z := -1.

Definition newline : ascii := ascii_of_nat 10.
Definition NUL : ascii := ascii_of_nat 0.

Definition isspace (c : ascii) : bool :=
  let n := nat_of_ascii c in
  Nat.eqb n 32 || (Nat.leb 9 n && Nat.leb n 13).

Definition isdigit (c : ascii) : bool :=
  let n := nat_of_ascii c in
  Nat.leb 48 n && Nat.leb n 57.

Definition digit_value (c : ascii) : Z := Z.of_nat (nat_of_ascii c) - 48.

(** The characters of a [char] array seen as a C string: up to the first
    NUL. *)
Fixpoint c_str (buf : string) : string :=
  match buf with
  | EmptyString => EmptyString
  | String c buf' => if Ascii.eqb c NUL then EmptyString else String c (c_str buf')
  end.

(** [fgets(line, size, fp)] reads at most [size - 1] characters and stops
    after a newline.  [fgets_chars room fp] is the pair of what is stored
    and what stays unread. *)
Fixpoint fgets_chars (room : nat) (fp : string) : string * string :=
  match room, fp with
  | O, _ => (EmptyString, fp)
  | S _, EmptyString => (EmptyString, EmptyString)
  | S room', String c fp' =>
    if Ascii.eqb c newline then (String c EmptyString, fp')
    else let '(line, rest) := fgets_chars room' fp' in (String c line, rest)
  end.

(** [None] is the null pointer [fgets] returns at end of file. *)
Definition fgets (size : nat) (fp : string) : option (string * string) :=
  match fp with
  | EmptyString => None
  | String _ _ => Some (fgets_chars (size - 1) fp)
  end.

Fixpoint skip_space (s : string) : string :=
  match s with
  | EmptyString => EmptyString
  | String c s' => if isspace c then skip_space s' else s
  end.

Fixpoint scan_digits (s : string) (acc : Z) : Z * string :=
  match s with
  | EmptyString => (acc, EmptyString)
  | String c s' =>
    if isdigit c then scan_digits s' (acc * 10 + digit_value c) else (acc, s)
  end.

(** A value outside [long] is stored saturated, as [strtol] yields it. *)
Definition clamp_long (v : Z) : Z := Z.max LONG_MIN (Z.min LONG_MAX v).

Inductive conversion : Type :=
| InputFailure
| MatchingFailure
| Converted (v : Z) (rest : string).

(** The [%ld] directive: blanks, an optional sign, decimal digits. *)
Definition scan_long (input : string) : conversion :=
  match skip_space input with
  | EmptyString => InputFailure
  | String c s' =>
    let '(negative, body) :=
      if Ascii.eqb c "-" then (true, s')
      else if Ascii.eqb c "+" then (false, s')
      else (false, String c s') in
    match body with
    | EmptyString => MatchingFailure
    | String d _ =>
      if isdigit d
      then let '(v, rest) := scan_digits body 0 in
           Converted (clamp_long (if negative then - v else v)) rest
      else MatchingFailure
    end
  end.

Definition scanf_result (assigned : list Z) (input_failure : bool) : Z * list Z :=
  match assigned with
  | [] => if input_failure then (EOF, assigned) else (0, assigned)
  | _ => (Z.of_nat (length assigned), assigned)
  end.

(** [sscanf] for formats made of blanks, ordinary characters and [%ld].
    The result is the return value and the values stored through the
    pointer arguments, in order. *)
Fixpoint sscanf_from (format input : string) (assigned : list Z) : Z * list Z :=
  match format with
  | EmptyString => scanf_result assigned false
  | String f format1 =>
    if Ascii.eqb f "%" then
      match format1 with
      | String l (String d format') =>
        if Ascii.eqb l "l" && Ascii.eqb d "d" then
          match scan_long input with
          | Converted v rest => sscanf_from format' rest (assigned ++ [v])
          | InputFailure => scanf_result assigned true
          | MatchingFailure => scanf_result assigned false
          end
        else scanf_result assigned false
      | _ => scanf_result assigned false
      end
    else if isspace f then sscanf_from format1 (skip_space input) assigned
    else
      match input with
      | EmptyString => scanf_result assigned true
      | String c input' =>
        if Ascii.eqb c f then sscanf_from format1 input' assigned
        else scanf_result assigned false
      end
  end.

Definition sscanf (str format : string) : Z * list Z :=
  sscanf_from format (c_str str) [].

End Libc.

Import JNI.

(** ** llama_jni.cpp *)

Module Llama.

(** A pointer to an opaque engine structure ([llama_model], [llama_context]):
    null or some address. *)
Inductive pointer : Type :=
| nullptr
| address (a : positive).

Definition is_null (p : pointer) : bool :=
  match p with nullptr => true | address _ => false end.

(** The statics of the translation unit, with their initialisers. *)
Record Globals : Type := mkGlobals {
  g_model : pointer;
  g_ctx : pointer;
  g_is_generating : bool
}.

Definition initial : Globals := mkGlobals nullptr nullptr false.

Definition LLM A := Native Globals A.

Definition Java_com_pulsenetwork_core_native_LLMInferenceImpl_nativeLoadModel
    (model_path : string) (context_length threads : Z) : LLM jboolean :=
  path ← GetStringUTFChars model_path;
  LOGI "Loading model from: %s" [LStr path];;
  LOGI "Context length: %d, Threads: %d" [LInt context_length; LInt threads];;
  ReleaseStringUTFChars model_path path;;
  mret JNI_TRUE.

Definition Java_com_pulsenetwork_core_native_LLMInferenceImpl_nativeIsModelLoaded
    : LLM jboolean :=
  m ← get_global g_model;
  mret (if is_null m then JNI_FALSE else JNI_TRUE).

Definition Java_com_pulsenetwork_core_native_LLMInferenceImpl_nativeGenerate
    (prompt : string) (max_tokens : Z) (temperature top_p : jfloat) (top_k : Z)
    : LLM jvalue :=
  prompt_str ← GetStringUTFChars prompt;
  LOGI "Generating text, max_tokens=%d, temp=%.2f"
       [LInt max_tokens; LFloat temperature];;
  let result := "[JNI Bridge] 模型未实际加载，这是占位响应。" in
  ReleaseStringUTFChars prompt prompt_str;;
  NewStringUTF (Chars result).

Definition Java_com_pulsenetwork_core_native_LLMInferenceImpl_nativeGenerateStream
    (prompt : string) (max_tokens : Z) (temperature top_p : jfloat) (top_k : Z)
    : LLM jvalue :=
  prompt_str ← GetStringUTFChars prompt;
  LOGI "Generating text (stream), max_tokens=%d" [LInt max_tokens];;
  stringClass ← FindClass "java/lang/String";
  result ← NewObjectArray 5 stringClass JNull;
  s0 ← NewStringUTF (Chars "这是");
  result ← SetObjectArrayElement result 0 s0;
  s1 ← NewStringUTF (Chars "模拟");
  result ← SetObjectArrayElement result 1 s1;
  s2 ← NewStringUTF (Chars "的");
  result ← SetObjectArrayElement result 2 s2;
  s3 ← NewStringUTF (Chars "流式");
  result ← SetObjectArrayElement result 3 s3;
  s4 ← NewStringUTF (Chars "响应。");
  result ← SetObjectArrayElement result 4 s4;
  ReleaseStringUTFChars prompt prompt_str;;
  mret result.

Definition Java_com_pulsenetwork_core_native_LLMInferenceImpl_nativeStopGeneration
    : LLM unit :=
  set_globals (fun g => mkGlobals (g_model g) (g_ctx g) false);;
  LOGI "Generation stopped" [].

Definition Java_com_pulsenetwork_core_native_LLMInferenceImpl_nativeGetEmbedding
    (text : string) : LLM jvalue :=
  text_str ← GetStringUTFChars text;
  let dimension := 384%nat in
  result ← NewFloatArray dimension;
  let data := replicate dimension Indeterminate in
  data ← for_upto dimension (fun i data =>
            r ← rand;
            mret (<[i := F32 (Z.rem r 200 - 100) 100]> data)) data;
  result ← SetFloatArrayRegion result 0 dimension data;
  ReleaseStringUTFChars text text_str;;
  mret result.

Definition Java_com_pulsenetwork_core_native_LLMInferenceImpl_nativeGetModelInfo
    : LLM jvalue :=
  infoClass ← FindClass "com/pulsenetwork/core/native/ModelInfo";
  constructor ← GetMethodID infoClass "<init>"
                  "(Ljava/lang/String;JIILjava/lang/String;J)V";
  name ← NewStringUTF (Chars "Unknown Model");
  quantization ← NewStringUTF (Chars "Unknown");
  NewObject infoClass constructor
    [ name;
      JLong 0;      (* parameterCount *)
      JInt 2048;    (* contextLength *)
      JInt 384;     (* embeddingSize *)
      quantization;
      JLong 0       (* fileSizeMB *) ].

Definition Java_com_pulsenetwork_core_native_LLMInferenceImpl_nativeUnloadModel
    : LLM unit :=
  set_globals (fun g => mkGlobals (g_model g) nullptr (g_is_generating g));;
  set_globals (fun g => mkGlobals nullptr (g_ctx g) (g_is_generating g));;
  LOGI "Model unloaded" [].

(** [while (fgets(line, sizeof(line), fp)) { if (sscanf(...) == 1) break; }]
    with [line] of 256 characters.  Every round reads at least one
    character, so [fuel] as large as the unread content never runs out. *)
Fixpoint while_fgets (fuel : nat) (fp : string) (availableKB : Z) : Z :=
  match fuel with
  | O => availableKB
  | S fuel' =>
    match Libc.fgets 256 fp with
    | None => availableKB
    | Some (line, fp') =>
      let '(n, stored) := Libc.sscanf line "MemAvailable: %ld kB" in
      let availableKB := nth 0 stored availableKB in
      if n =? 1 then availableKB else while_fgets fuel' fp' availableKB
    end
  end.

Definition Java_com_pulsenetwork_core_native_LLMInferenceImpl_nativeGetAvailableMemory
    : LLM Z :=
  fp ← fopen "/proc/meminfo" "r";
  match fp with
  | None => mret 0
  | Some fp =>
    let availableKB := 0 in
    let availableKB := while_fgets (String.length fp) fp availableKB in
    fclose fp;;
    mret (Z.quot availableKB 1024)
  end.

End Llama.

(** ** whisper_jni.cpp *)

Module Whisper.

Inductive pointer : Type :=
| nullptr
| address (a : positive).

Definition is_null (p : pointer) : bool :=
  match p with nullptr => true | address _ => false end.

Record Globals : Type := mkGlobals {
  g_whisper_ctx : pointer
}.

Definition initial : Globals := mkGlobals nullptr.

Definition Speech A := Native Globals A.

Definition Java_com_pulsenetwork_core_native_SpeechRecognitionImpl_nativeLoadModel
    (model_path : string) : Speech jboolean :=
  path ← GetStringUTFChars model_path;
  LOGI "Loading whisper model from: %s" [LStr path];;
  ReleaseStringUTFChars model_path path;;
  mret JNI_TRUE.

Definition Java_com_pulsenetwork_core_native_SpeechRecognitionImpl_nativeIsModelLoaded
    : Speech jboolean :=
  c ← get_global g_whisper_ctx;
  mret (if is_null c then JNI_FALSE else JNI_TRUE).

Definition Java_com_pulsenetwork_core_native_SpeechRecognitionImpl_nativeTranscribe
    (samples : list jfloat) (language : string) : Speech jvalue :=
  sample_count ← GetArrayLength samples;
  sample_data ← GetFloatArrayElements samples;
  lang ← GetStringUTFChars language;
  LOGI "Transcribing %d samples, language: %s" [LInt sample_count; LStr lang];;
  ReleaseFloatArrayElements samples sample_data 0;;
  ReleaseStringUTFChars language lang;;
  resultClass ← FindClass "com/pulsenetwork/core/native/TranscriptionResult";
  constructor ← GetMethodID resultClass "<init>"
                  "(Ljava/util/List;JLjava/lang/String;F)V";
  segmentClass ← FindClass "com/pulsenetwork/core/native/TranscriptionSegment";
  listClass ← FindClass "java/util/ArrayList";
  listConstructor ← GetMethodID listClass "<init>" "()V";
  segmentList ← NewObject listClass listConstructor [];
  segmentConstructor ← GetMethodID segmentClass "<init>"
                         "(Ljava/lang/String;JJF)V";
  segmentText ← NewStringUTF (Chars "[JNI] 模拟转录结果");
  segment ← NewObject segmentClass segmentConstructor
              [ segmentText;
                JLong 0;             (* startTimeMs *)
                JLong 3000;          (* endTimeMs *)
                JFloat (F32 95 100)  (* confidence *) ];
  addMethod ← GetMethodID listClass "add" "(Ljava/lang/Object;)Z";
  segmentList ← CallBooleanMethod segmentList addMethod [segment];
  text ← NewStringUTF (Chars "[JNI] 模拟转录文本");
  usedLanguage ← NewStringUTF lang;
  NewObject resultClass constructor
    [ text;
      segmentList;
      JLong 500;           (* processingTimeMs *)
      usedLanguage;
      JFloat (F32 9 10)    (* confidence *) ].

Definition Java_com_pulsenetwork_core_native_SpeechRecognitionImpl_nativeTranscribeFile
    (file_path language : string) : Speech jvalue :=
  path ← GetStringUTFChars file_path;
  lang ← GetStringUTFChars language;
  LOGI "Transcribing file: %s" [LStr path];;
  ReleaseStringUTFChars file_path path;;
  ReleaseStringUTFChars language lang;;
  mret JNull.

Definition Java_com_pulsenetwork_core_native_SpeechRecognitionImpl_nativeUnloadModel
    : Speech unit :=
  set_globals (fun _ => mkGlobals nullptr);;
  LOGI "Whisper model unloaded" [].

End Whisper.

(** * Vocabulary of the statements *)

Local Close Scope string_scope.

(** Short names for the entry points. *)
Local Abbreviation llama_nativeLoadModel :=
  Llama.Java_com_pulsenetwork_core_native_LLMInferenceImpl_nativeLoadModel.
Local Abbreviation llama_nativeIsModelLoaded :=
  Llama.Java_com_pulsenetwork_core_native_LLMInferenceImpl_nativeIsModelLoaded.
Local Abbreviation llama_nativeGenerate :=
  Llama.Java_com_pulsenetwork_core_native_LLMInferenceImpl_nativeGenerate.
Local Abbreviation llama_nativeGenerateStream :=
  Llama.Java_com_pulsenetwork_core_native_LLMInferenceImpl_nativeGenerateStream.
Local Abbreviation llama_nativeStopGeneration :=
  Llama.Java_com_pulsenetwork_core_native_LLMInferenceImpl_nativeStopGeneration.
Local Abbreviation llama_nativeGetEmbedding :=
  Llama.Java_com_pulsenetwork_core_native_LLMInferenceImpl_nativeGetEmbedding.
Local Abbreviation llama_nativeGetModelInfo :=
  Llama.Java_com_pulsenetwork_core_native_LLMInferenceImpl_nativeGetModelInfo.
Local Abbreviation llama_nativeUnloadModel :=
  Llama.Java_com_pulsenetwork_core_native_LLMInferenceImpl_nativeUnloadModel.
Local Abbreviation llama_nativeGetAvailableMemory :=
  Llama.Java_com_pulsenetwork_core_native_LLMInferenceImpl_nativeGetAvailableMemory.
Local Abbreviation whisper_nativeLoadModel :=
  Whisper.Java_com_pulsenetwork_core_native_SpeechRecognitionImpl_nativeLoadModel.
Local Abbreviation whisper_nativeIsModelLoaded :=
  Whisper.Java_com_pulsenetwork_core_native_SpeechRecognitionImpl_nativeIsModelLoaded.
Local Abbreviation whisper_nativeTranscribe :=
  Whisper.Java_com_pulsenetwork_core_native_SpeechRecognitionImpl_nativeTranscribe.
Local Abbreviation whisper_nativeTranscribeFile :=
  Whisper.Java_com_pulsenetwork_core_native_SpeechRecognitionImpl_nativeTranscribeFile.
Local Abbreviation whisper_nativeUnloadModel :=
  Whisper.Java_com_pulsenetwork_core_native_SpeechRecognitionImpl_nativeUnloadModel.

(** ** Effects on the runtime *)

Definition info (f : string) (l : list log_arg) : log_line :=
  LogLine ANDROID_LOG_INFO LOG_TAG f l.

(** The runtime after a call that borrowed and released [borrowed] and
    wrote [lines] to logcat. *)
Definition marshalled (borrowed : list payload) (lines : list log_line)
    (r : Runtime) : Runtime :=
  with_logcat (logcat r ++ lines)
    (with_buffers (buffers r ++ map (fun p => Buffer p true) borrowed) r).

(** The one segment and the segment list [nativeTranscribe] builds. *)
Definition simulated_segment : jvalue :=
  JObject (MethodID "com/pulsenetwork/core/native/TranscriptionSegment"
                    "<init>" "(Ljava/lang/String;JJF)V")
    [JString "[JNI] 模拟转录结果"; JLong 0; JLong 3000; JFloat (F32 95 100)].

Definition simulated_segments : jvalue :=
  JInvoked (JObject (MethodID "java/util/ArrayList" "<init>" "()V") [])
           (MethodID "java/util/ArrayList" "add" "(Ljava/lang/Object;)Z")
           [simulated_segment].

Definition result_constructor : jmethodID :=
  MethodID "com/pulsenetwork/core/native/TranscriptionResult" "<init>"
           "(Ljava/util/List;JLjava/lang/String;F)V".

(** The value stored at index [k] when [calls] calls of [rand] came before
    the loop: [(float)(rand() % 200 - 100) / 100.0f]. *)
Definition embedding_entry (rnd : nat -> Z) (calls k : nat) : jfloat :=
  F32 (Z.rem (rnd (calls + k)%nat) 200 - 100) 100.

(** Nothing borrowed from the virtual machine is still held. *)
Definition all_released (r : Runtime) : Prop :=
  Forall (fun b => released b = true) (buffers r).

(** ** Reading results back

    How the managed caller sees what an entry point returned. *)

Definition utf_of (v : jvalue) : option string :=
  match v with
  | JString s => Some s
  | _ => None
  end.

Fixpoint concat_fragments (l : list jvalue) : option string :=
  match l with
  | [] => Some EmptyString
  | v :: l' =>
    match utf_of v, concat_fragments l' with
    | Some s, Some t => Some (s ++ t)%string
    | _, _ => None
    end
  end.

(** The text a [String[]] of fragments spells out. *)
Definition stream_text (v : jvalue) : option string :=
  match v with
  | JObjectArray _ elems => concat_fragments elems
  | _ => None
  end.

Definition vector_length (v : jvalue) : option nat :=
  match v with
  | JFloatArray elems => Some (length elems)
  | _ => None
  end.

(** The fourth constructor argument of a [ModelInfo], which
    [nativeGetModelInfo] labels [embeddingSize]. *)
Definition embeddingSize (info : jvalue) : option Z :=
  match info with
  | JObject _ [_; _; _; JInt n; _; _] => Some n
  | _ => None
  end.

Definition is_null_ref (v : jvalue) : bool :=
  match v with
  | JNull => true
  | _ => false
  end.

Definition raised {G} (w : World G) : bool :=
  match pending_exception (runtime w) with
  | Some _ => true
  | None => false
  end.

(** The two ways a JNI entry point has of telling its caller that it
    failed: the null reference (or [JNI_FALSE]) as result, or an exception
    left pending. *)
Definition object_call_failed {G} (res : jvalue * World G) : bool :=
  is_null_ref (fst res) || raised (snd res).

Definition flag_call_failed {G} (res : jboolean * World G) : bool :=
  negb (fst res) || raised (snd res).

(** ** /proc/meminfo as text *)

Definition decimal (n : N) : string := NilZero.string_of_uint (N.to_uint n).

Fixpoint all_chars (P : ascii -> bool) (s : string) : bool :=
  match s with
  | EmptyString => true
  | String c s' => P c && all_chars P s'
  end.

Fixpoint spaces (k : nat) : string :=
  match k with
  | O => EmptyString
  | S k' => String " " (spaces k')
  end.

(** Lines, each closed by a newline. *)
Fixpoint unlines (ls : list string) : string :=
  match ls with
  | [] => EmptyString
  | l :: ls' => (l ++ String Libc.newline (unlines ls'))%string
  end.

(** A line that fits, with its newline, the 256 characters of [line]. *)
Definition is_short_line (l : string) : bool :=
  (String.length l <? 255)%nat
  && all_chars (fun c => negb (Ascii.eqb c Libc.newline)) l.

(** The line the kernel prints for [kb] kilobytes, padded by [pad] blanks. *)
Definition meminfo_line (pad : nat) (kb : N) : string :=
  ("MemAvailable:" ++ spaces pad ++ decimal kb ++ " kB")%string.

(** A line of the file that is not the one looked for. *)
Definition other_line (l : string) : Prop :=
  is_short_line l = true /\ String.prefix "MemAvailable:" l = false.

(** A format character that stands for itself. *)
Definition ordinary (c : ascii) : bool :=
  negb (Ascii.eqb c "%") && negb (Libc.isspace c).

(** What the memory-accounting file says, in megabytes: nothing when it
    cannot be opened or has no [MemAvailable] line, else the kilobytes of
    that line divided by 1024. *)
Inductive reported_megabytes : option string -> Z -> Prop :=
| meminfo_unreadable :
    reported_megabytes None 0
| meminfo_without_line (lines : list string) (last : string) :
    Forall other_line (lines ++ [last]) ->
    reported_megabytes (Some (unlines lines ++ last)%string) 0
| meminfo_with_line (before : list string) (pad : nat) (kb : N)
      (rest : string) :
    Forall other_line before ->
    is_short_line (meminfo_line pad kb) = true ->
    Z.of_N kb <= Libc.LONG_MAX ->
    reported_megabytes
      (Some (unlines before ++ meminfo_line pad kb
               ++ String Libc.newline rest)%string)
      (Z.of_N kb / 1024).

(** ** A process to run examples in *)

Definition sample_meminfo : string :=
  (unlines ["MemTotal:        3882464 kB"; "MemFree:          177416 kB"]
   ++ meminfo_line 4 1835468 ++ String Libc.newline
        (unlines ["Buffers:           40128 kB"]))%string.

Definition sample_files (path : string) : option string :=
  if String.eqb path "/proc/meminfo" then Some sample_meminfo
  else if String.eqb path "/data/local/tmp/model.gguf" then Some "GGUF"%string
  else None.

Definition sample_runtime : Runtime :=
  fresh (fun n => Z.of_nat n * 7919 + 13) sample_files.

(** ** Sequences of calls

    What the managed side can do with an adapter: any of its entry points,
    with any arguments, in any order. *)

Inductive llama_call : Type :=
| CallLoadModel (model_path : string) (context_length threads : Z)
| CallIsModelLoaded
| CallGenerate (prompt : string) (max_tokens : Z)
               (temperature top_p : jfloat) (top_k : Z)
| CallGenerateStream (prompt : string) (max_tokens : Z)
                     (temperature top_p : jfloat) (top_k : Z)
| CallStopGeneration
| CallGetEmbedding (text : string)
| CallGetModelInfo
| CallUnloadModel
| CallGetAvailableMemory.

(** The world a call leaves behind; its result goes to the caller. *)
Definition llama_perform (c : llama_call) (w : World Llama.Globals)
    : World Llama.Globals :=
  match c with
  | CallLoadModel p n t => snd (llama_nativeLoadModel p n t w)
  | CallIsModelLoaded => snd (llama_nativeIsModelLoaded w)
  | CallGenerate p n t tp k => snd (llama_nativeGenerate p n t tp k w)
  | CallGenerateStream p n t tp k =>
    snd (llama_nativeGenerateStream p n t tp k w)
  | CallStopGeneration => snd (llama_nativeStopGeneration w)
  | CallGetEmbedding t => snd (llama_nativeGetEmbedding t w)
  | CallGetModelInfo => snd (llama_nativeGetModelInfo w)
  | CallUnloadModel => snd (llama_nativeUnloadModel w)
  | CallGetAvailableMemory => snd (llama_nativeGetAvailableMemory w)
  end.

Definition llama_run (cs : list llama_call) (w : World Llama.Globals)
    : World Llama.Globals :=
  fold_left (fun w c => llama_perform c w) cs w.

Definition is_llama_unload (c : llama_call) : bool :=
  match c with CallUnloadModel => true | _ => false end.

Definition is_llama_stop (c : llama_call) : bool :=
  match c with CallStopGeneration => true | _ => false end.

Inductive whisper_call : Type :=
| SpeechLoadModel (model_path : string)
| SpeechIsModelLoaded
| SpeechTranscribe (samples : list jfloat) (language : string)
| SpeechTranscribeFile (file_path language : string)
| SpeechUnloadModel.

Definition whisper_perform (c : whisper_call) (w : World Whisper.Globals)
    : World Whisper.Globals :=
  match c with
  | SpeechLoadModel p => snd (whisper_nativeLoadModel p w)
  | SpeechIsModelLoaded => snd (whisper_nativeIsModelLoaded w)
  | SpeechTranscribe s l => snd (whisper_nativeTranscribe s l w)
  | SpeechTranscribeFile p l => snd (whisper_nativeTranscribeFile p l w)
  | SpeechUnloadModel => snd (whisper_nativeUnloadModel w)
  end.

Definition whisper_run (cs : list whisper_call) (w : World Whisper.Globals)
    : World Whisper.Globals :=
  fold_left (fun w c => whisper_perform c w) cs w.

Definition is_whisper_unload (c : whisper_call) : bool :=
  match c with SpeechUnloadModel => true | _ => false end.

Definition is_transcribe (c : whisper_call) : bool :=
  match c with SpeechTranscribe _ _ => true | _ => false end.

(** ** Method descriptors

    The number of parameters a JNI method descriptor declares: one for each
    primitive type letter and one for each class name between [L] and [;],
    with [[] a prefix of the type it precedes. *)

Fixpoint count_parameters (s : string) (in_class : bool) : option nat :=
  match s with
  | EmptyString => None
  | String c s' =>
    if in_class then
      if Ascii.eqb c ";" then option_map S (count_parameters s' false)
      else count_parameters s' true
    else if Ascii.eqb c ")" then Some 0%nat
    else if Ascii.eqb c "L" then count_parameters s' true
    else if Ascii.eqb c "[" then count_parameters s' false
    else if existsb (Ascii.eqb c) ["B"; "C"; "D"; "F"; "I"; "J"; "S"; "Z"]%char
    then option_map S (count_parameters s' false)
    else None
  end.

Definition descriptor_arity (sig : string) : option nat :=
  match sig with
  | String c s => if Ascii.eqb c "(" then count_parameters s false else None
  | EmptyString => None
  end.

(** The arguments handed to a constructor or method are as many as its
    descriptor declares. *)
Definition applied_as_declared (m : jmethodID) (actuals : list jvalue) : bool :=
  match descriptor_arity (m_sig m) with
  | Some n => Nat.eqb n (length actuals)
  | None => false
  end.

(** ** A file with a long line *)

Fixpoint filler (n : nat) (c : ascii) : string :=
  match n with
  | O => EmptyString
  | S n' => String c (filler n' c)
  end.

Definition long_line_runtime : Runtime :=
  fresh (fun n => Z.of_nat n)
        (fun _ => Some (filler 255 "x" ++ meminfo_line 1 2048
                          ++ String Libc.newline EmptyString)%string).

Definition low_memory_runtime : Runtime :=
  fresh (fun n => Z.of_nat n)
        (fun _ => Some (unlines ["MemTotal:        3882464 kB"%string]
                          ++ meminfo_line 4 512
                          ++ String Libc.newline EmptyString)%string).

(** * Properties *)

(** ** Borrowed buffers *)

Section Marshalling.

Context {G : Type}.
Implicit Types (r : Runtime) (w : World G) (bs : list buffer).

Lemma lookup_borrowed bs (b : buffer) (l : list buffer) :
  (bs ++ b :: l) !! length bs = Some b.
Proof. by rewrite list_lookup_middle. Qed.

Lemma lookup_borrowed_next bs (b0 b : buffer) (l : list buffer) :
  (bs ++ b0 :: b :: l) !! (length bs + 1)%nat = Some b.
Proof.
  change (bs ++ b0 :: b :: l) with (bs ++ [b0] ++ b :: l).
  rewrite (assoc_L (++) bs [b0] (b :: l)).
  rewrite list_lookup_middle; [done|].
  rewrite length_app. reflexivity.
Qed.

Lemma mark_released_at bs (b : buffer) (l : list buffer) :
  mark_released (length bs) (bs ++ b :: l) = bs ++ Buffer (held b) true :: l.
Proof.
  unfold mark_released. rewrite lookup_borrowed.
  rewrite insert_app_r_alt by lia.
  by rewrite Nat.sub_diag.
Qed.

Lemma mark_released_next bs (b0 b : buffer) (l : list buffer) :
  mark_released (length bs + 1) (bs ++ b0 :: b :: l)
  = bs ++ b0 :: Buffer (held b) true :: l.
Proof.
  unfold mark_released. rewrite lookup_borrowed_next.
  rewrite insert_app_r_alt by lia.
  by replace (length bs + 1 - length bs)%nat with 1%nat by lia.
Qed.

End Marshalling.

(** ** Running an entry point on a symbolic world

    [native_eval] unfolds the monad and the JNI calls and leaves the list
    operations on [buffers] alone; [native_run] alternates it with the
    lemmas on borrowed buffers until nothing moves. *)

Ltac native_eval :=
  cbv beta iota zeta delta
    [mbind mret Native_bind Native_ret on_runtime get_global set_globals
     LOGI android_log_print read_log_actuals read_chars GetStringUTFChars
     ReleaseStringUTFChars NewStringUTF GetArrayLength GetFloatArrayElements
     ReleaseFloatArrayElements FindClass GetMethodID NewObject
     CallBooleanMethod NewObjectArray NewFloatArray SetObjectArrayElement
     with_buffers with_stale_reads with_pending_exception with_logcat
     with_rand_calls buffers stale_reads pending_exception logcat rand_calls
     libc_rand filesystem runtime globals fst snd held released].

Ltac native_run :=
  repeat (native_eval;
          rewrite <- ?app_assoc, ?length_app;
          cbn [Nat.ltb Nat.leb replicate length app insert list_insert];
          rewrite ?lookup_borrowed, ?lookup_borrowed_next,
                  ?mark_released_at, ?mark_released_next).

Ltac native_done :=
  native_run;
  try (unfold marshalled; native_run; cbn [map]; rewrite ?app_nil_r);
  reflexivity.

(** ** What each straight-line entry point does to the world *)

Lemma llama_nativeLoadModel_exec path cl th (w : World Llama.Globals) :
  llama_nativeLoadModel path cl th w =
  (JNI_TRUE,
   mkWorld
     (marshalled [UTF path]
        [info "Loading model from: %s" [ArgStr path];
         info "Context length: %d, Threads: %d" [ArgInt cl; ArgInt th]]
        (runtime w))
     (globals w)).
Proof.
  destruct w as [[bs stale exn log calls rnd fs] g].
  unfold Llama.Java_com_pulsenetwork_core_native_LLMInferenceImpl_nativeLoadModel.
  native_done.
Qed.

Lemma llama_nativeGenerate_exec prompt max_tokens temperature top_p top_k
    (w : World Llama.Globals) :
  llama_nativeGenerate prompt max_tokens temperature top_p top_k w =
  (JString "[JNI Bridge] 模型未实际加载，这是占位响应。",
   mkWorld
     (marshalled [UTF prompt]
        [info "Generating text, max_tokens=%d, temp=%.2f"
              [ArgInt max_tokens; ArgFloat temperature]]
        (runtime w))
     (globals w)).
Proof.
  destruct w as [[bs stale exn log calls rnd fs] g].
  unfold Llama.Java_com_pulsenetwork_core_native_LLMInferenceImpl_nativeGenerate.
  native_done.
Qed.

Lemma llama_nativeGenerateStream_exec prompt max_tokens temperature top_p top_k
    (w : World Llama.Globals) :
  llama_nativeGenerateStream prompt max_tokens temperature top_p top_k w =
  (JObjectArray "java/lang/String"
     [JString "这是"; JString "模拟"; JString "的"; JString "流式";
      JString "响应。"],
   mkWorld
     (marshalled [UTF prompt]
        [info "Generating text (stream), max_tokens=%d" [ArgInt max_tokens]]
        (runtime w))
     (globals w)).
Proof.
  destruct w as [[bs stale exn log calls rnd fs] g].
  unfold Llama.Java_com_pulsenetwork_core_native_LLMInferenceImpl_nativeGenerateStream.
  native_done.
Qed.

Lemma llama_nativeStopGeneration_exec (w : World Llama.Globals) :
  llama_nativeStopGeneration w =
  (tt,
   mkWorld
     (marshalled [] [info "Generation stopped" []] (runtime w))
     (Llama.mkGlobals (Llama.g_model (globals w)) (Llama.g_ctx (globals w))
                      false)).
Proof.
  destruct w as [[bs stale exn log calls rnd fs] g].
  unfold Llama.Java_com_pulsenetwork_core_native_LLMInferenceImpl_nativeStopGeneration.
  native_done.
Qed.

Lemma llama_nativeGetModelInfo_exec (w : World Llama.Globals) :
  llama_nativeGetModelInfo w =
  (JObject (MethodID "com/pulsenetwork/core/native/ModelInfo" "<init>"
                     "(Ljava/lang/String;JIILjava/lang/String;J)V")
     [JString "Unknown Model"; JLong 0; JInt 2048; JInt 384;
      JString "Unknown"; JLong 0],
   w).
Proof. by destruct w as [[bs stale exn log calls rnd fs] g]. Qed.

Lemma llama_nativeUnloadModel_exec (w : World Llama.Globals) :
  llama_nativeUnloadModel w =
  (tt,
   mkWorld
     (marshalled [] [info "Model unloaded" []] (runtime w))
     (Llama.mkGlobals Llama.nullptr Llama.nullptr
                      (Llama.g_is_generating (globals w)))).
Proof.
  destruct w as [[bs stale exn log calls rnd fs] g].
  unfold Llama.Java_com_pulsenetwork_core_native_LLMInferenceImpl_nativeUnloadModel.
  native_done.
Qed.

Lemma whisper_nativeLoadModel_exec path (w : World Whisper.Globals) :
  whisper_nativeLoadModel path w =
  (JNI_TRUE,
   mkWorld
     (marshalled [UTF path]
        [info "Loading whisper model from: %s" [ArgStr path]]
        (runtime w))
     (globals w)).
Proof.
  destruct w as [[bs stale exn log calls rnd fs] g].
  unfold Whisper.Java_com_pulsenetwork_core_native_SpeechRecognitionImpl_nativeLoadModel.
  native_done.
Qed.

Lemma whisper_nativeTranscribeFile_exec file_path language
    (w : World Whisper.Globals) :
  whisper_nativeTranscribeFile file_path language w =
  (JNull,
   mkWorld
     (marshalled [UTF file_path; UTF language]
        [info "Transcribing file: %s" [ArgStr file_path]]
        (runtime w))
     (globals w)).
Proof.
  destruct w as [[bs stale exn log calls rnd fs] g].
  unfold Whisper.Java_com_pulsenetwork_core_native_SpeechRecognitionImpl_nativeTranscribeFile.
  native_done.
Qed.

Lemma whisper_nativeUnloadModel_exec (w : World Whisper.Globals) :
  whisper_nativeUnloadModel w =
  (tt,
   mkWorld
     (marshalled [] [info "Whisper model unloaded" []] (runtime w))
     (Whisper.mkGlobals Whisper.nullptr)).
Proof.
  destruct w as [[bs stale exn log calls rnd fs] g].
  unfold Whisper.Java_com_pulsenetwork_core_native_SpeechRecognitionImpl_nativeUnloadModel.
  native_done.
Qed.

Lemma whisper_nativeTranscribe_exec samples language
    (w : World Whisper.Globals) :
  whisper_nativeTranscribe samples language w =
  (JObject result_constructor
     [JString "[JNI] 模拟转录文本"; simulated_segments; JLong 500;
      JStaleString language; JFloat (F32 9 10)],
   mkWorld
     (with_stale_reads (S (stale_reads (runtime w)))
        (marshalled [Floats samples; UTF language]
           [info "Transcribing %d samples, language: %s"
                 [ArgInt (Z.of_nat (length samples)); ArgStr language]]
           (runtime w)))
     (globals w)).
Proof.
  destruct w as [[bs stale exn log calls rnd fs] g].
  unfold Whisper.Java_com_pulsenetwork_core_native_SpeechRecognitionImpl_nativeTranscribe.
  native_done.
Qed.

(** ** The loop of [nativeGetEmbedding] *)

Lemma embedding_loop {G} (count : nat) :
  ∀ (filled : list jfloat) (r : Runtime) (g : G),
    for_from (length filled) count
      (fun i data =>
         v ← rand;
         mret (<[i := F32 (Z.rem v 200 - 100) 100]> data))
      (filled ++ replicate count Indeterminate) (mkWorld r g)
    = (filled ++ map (embedding_entry (libc_rand r) (rand_calls r)) (seq 0 count),
       mkWorld (with_rand_calls (rand_calls r + count) r) g).
Proof.
  induction count as [|count IH]; intros filled [bs stale exn log calls rnd fs] g.
  - cbn. rewrite Nat.add_0_r. reflexivity.
  - cbn [for_from replicate].
    unfold mbind at 1, Native_bind at 1.
    unfold mbind at 1, Native_bind at 1, rand at 1, on_runtime.
    cbn [runtime globals libc_rand rand_calls with_rand_calls fst snd
         buffers stale_reads pending_exception logcat filesystem].
    unfold mret at 1, Native_ret at 1.
    rewrite (insert_app_r_alt filled) by done.
    rewrite Nat.sub_diag. cbn [insert list_insert].
    change (filled ++ ?v :: ?l) with (filled ++ [v] ++ l).
    rewrite (assoc_L (++)).
    replace (S (length filled)) with (length (filled ++ [F32 (Z.rem (rnd calls) 200 - 100) 100])).
    2:{ rewrite length_app. cbn. lia. }
    rewrite IH. cbn [libc_rand rand_calls with_rand_calls
         buffers stale_reads pending_exception logcat filesystem].
    rewrite <- (assoc_L (++)). cbn [seq map app].
    f_equal.
    + f_equal. unfold embedding_entry at 2. rewrite Nat.add_0_r. f_equal.
      rewrite <- seq_shift, map_map. apply map_ext. intros k.
      unfold embedding_entry.
      by replace (S calls + k)%nat with (calls + S k)%nat by lia.
    + unfold with_rand_calls. cbn.
      by replace (calls + S count)%nat with (S (calls + count)) by lia.
Qed.

Lemma SetFloatArrayRegion_whole {G} (n : nat) (zero : jfloat)
    (data : list jfloat) (w : World G) :
  length data = n ->
  SetFloatArrayRegion (JFloatArray (replicate n zero)) 0 n data w
  = (JFloatArray data, w).
Proof.
  intros Hn. destruct w as [r g].
  unfold SetFloatArrayRegion, on_runtime. cbn [runtime globals].
  rewrite length_replicate, Nat.add_0_l, Nat.leb_refl.
  rewrite take_0, resize_all_alt by done.
  rewrite drop_ge by (rewrite length_replicate; lia).
  cbn [app]. by rewrite app_nil_r.
Qed.

Lemma llama_nativeGetEmbedding_exec text (w : World Llama.Globals) :
  llama_nativeGetEmbedding text w =
  (JFloatArray
     (map (embedding_entry (libc_rand (runtime w)) (rand_calls (runtime w)))
          (seq 0 384)),
   mkWorld
     (with_rand_calls (rand_calls (runtime w) + 384)
        (marshalled [UTF text] [] (runtime w)))
     (globals w)).
Proof.
  destruct w as [[bs stale exn log calls rnd fs] g].
  unfold Llama.Java_com_pulsenetwork_core_native_LLMInferenceImpl_nativeGetEmbedding.
  unfold for_upto.
  native_eval.
  match goal with
  | |- context [for_from 0 384 ?b ?d ?W] =>
    change (for_from 0 384 b d W)
      with (for_from (length (@nil jfloat)) 384
              (fun i data =>
                 v ← rand;
                 mret (<[i := F32 (Z.rem v 200 - 100) 100]> data))
              ([] ++ replicate 384 Indeterminate) W)
  end.
  rewrite embedding_loop.
  rewrite app_nil_l.
  rewrite SetFloatArrayRegion_whole by (by rewrite length_map, length_seq).
  native_done.
Qed.

(** ** Every borrowed buffer is given back *)

Lemma marshalled_all_released borrowed lines r :
  all_released r -> all_released (marshalled borrowed lines r).
Proof.
  unfold all_released, marshalled. cbn [buffers with_logcat with_buffers].
  intros Hr. apply Forall_app. split; [done|].
  by apply Forall_map, Forall_true.
Qed.

Lemma entry_points_release_what_they_borrow
    (s t : string) (n k : Z) (f p : jfloat) (samples : list jfloat)
    (w : World Llama.Globals) (w' : World Whisper.Globals) :
  all_released (runtime w) ->
  all_released (runtime w') ->
  all_released (runtime (snd (llama_nativeLoadModel s n k w)))
  /\ all_released (runtime (snd (llama_nativeGenerate s n f p k w)))
  /\ all_released (runtime (snd (llama_nativeGenerateStream s n f p k w)))
  /\ all_released (runtime (snd (llama_nativeGetEmbedding s w)))
  /\ all_released (runtime (snd (whisper_nativeLoadModel s w')))
  /\ all_released (runtime (snd (whisper_nativeTranscribe samples s w')))
  /\ all_released (runtime (snd (whisper_nativeTranscribeFile s t w'))).
Proof.
  intros Hw Hw'.
  rewrite llama_nativeLoadModel_exec, llama_nativeGenerate_exec,
    llama_nativeGenerateStream_exec, llama_nativeGetEmbedding_exec,
    whisper_nativeLoadModel_exec, whisper_nativeTranscribe_exec,
    whisper_nativeTranscribeFile_exec.
  cbn [snd runtime].
  repeat split; by apply marshalled_all_released.
Qed.

(** ** Reading /proc/meminfo *)

Import Libc.

(** *** [%ld] reads back what the kernel prints

    [scan_digits] accumulates from the left as [Pos.of_uint_acc] does, so a
    number printed in decimal is converted to itself. *)

Lemma scan_digits_acc (tail : string) :
  (match tail with String c _ => isdigit c = false | EmptyString => True end) ->
  forall (d : Decimal.uint) (p : positive),
    scan_digits (NilEmpty.string_of_uint d ++ tail) (Z.pos p)
    = (Z.pos (Pos.of_uint_acc d p), tail).
Proof.
  intros Htail.
  induction d; intros p;
    cbn [NilEmpty.string_of_uint String.append scan_digits Pos.of_uint_acc];
    [ destruct tail as [|c tail]; [reflexivity|]; cbn [scan_digits]; by rewrite Htail
    | match goal with
      | |- context [isdigit ?c] =>
        change (isdigit c) with true; cbv iota;
        let v := eval vm_compute in (digit_value c) in
        change (digit_value c) with v
      end;
      rewrite <- IHd; f_equal; lia .. ].
Qed.

Lemma scan_digits_uint (tail : string) :
  (match tail with String c _ => isdigit c = false | EmptyString => True end) ->
  forall d : Decimal.uint,
    scan_digits (NilEmpty.string_of_uint d ++ tail) 0
    = (Z.of_N (Pos.of_uint d), tail).
Proof.
  intros Htail.
  induction d;
    cbn [NilEmpty.string_of_uint String.append scan_digits Pos.of_uint];
    [ destruct tail as [|c tail]; [reflexivity|]; cbn [scan_digits]; by rewrite Htail
    | match goal with
      | |- context [isdigit ?c] =>
        change (isdigit c) with true; cbv iota;
        let v := eval vm_compute in (0 * 10 + digit_value c) in
        change (0 * 10 + digit_value c) with v
      end;
      first [ exact IHd | apply (scan_digits_acc tail Htail) ] .. ].
Qed.

Lemma scan_digits_decimal (n : N) (tail : string) :
  (match tail with String c _ => isdigit c = false | EmptyString => True end) ->
  scan_digits (decimal n ++ tail) 0 = (Z.of_N n, tail).
Proof.
  intros Htail. unfold decimal, NilZero.string_of_uint.
  pose proof (DecimalN.Unsigned.of_to n) as Hn. unfold N.of_uint in Hn.
  destruct (N.to_uint n) eqn:E.
  { destruct n; cbn in E; [discriminate|].
    by apply DecimalPos.Unsigned.to_uint_nonnil in E. }
  all: rewrite <- Hn; apply (scan_digits_uint tail Htail).
Qed.

(** *** Strings and their characters *)

Lemma string_app_assoc (a b c : string) :
  ((a ++ b) ++ c = a ++ (b ++ c))%string.
Proof. induction a as [|x a IH]; cbn; [done|]. by rewrite IH. Qed.

Lemma string_length_app (a b : string) :
  String.length (a ++ b) = (String.length a + String.length b)%nat.
Proof. induction a as [|x a IH]; cbn; [done|]. by rewrite IH. Qed.

Lemma all_chars_app P a b :
  all_chars P (a ++ b) = all_chars P a && all_chars P b.
Proof. induction a as [|c a IH]; cbn; [done|]. by rewrite IH, andb_assoc. Qed.

Lemma all_chars_weaken (P Q : ascii -> bool) s :
  (forall c, P c = true -> Q c = true) ->
  all_chars P s = true -> all_chars Q s = true.
Proof.
  intros HPQ. induction s as [|c s IH]; cbn; [done|].
  intros [Hc Hs]%andb_prop. by rewrite (HPQ c Hc), IH.
Qed.

Lemma isdigit_facts c :
  isdigit c = true ->
  isspace c = false /\ Ascii.eqb c "-" = false /\ Ascii.eqb c "+" = false
  /\ Ascii.eqb c NUL = false /\ Ascii.eqb c newline = false.
Proof.
  destruct c as [[] [] [] [] [] [] [] []]; vm_compute; intros H;
    first [discriminate H | repeat split].
Qed.

Lemma uint_digits d : all_chars isdigit (NilEmpty.string_of_uint d) = true.
Proof. induction d; cbn [NilEmpty.string_of_uint all_chars]; [done|..]; exact IHd. Qed.

Lemma decimal_unfold n :
  exists c s, decimal n = String c s /\ isdigit c = true
              /\ all_chars isdigit s = true.
Proof.
  assert (Hd : all_chars isdigit (decimal n) = true).
  { unfold decimal, NilZero.string_of_uint.
    destruct (N.to_uint n) eqn:E; [done|..]; apply uint_digits. }
  destruct (decimal n) as [|c s] eqn:E.
  - exfalso. unfold decimal, NilZero.string_of_uint in E.
    destruct (N.to_uint n); discriminate E.
  - cbn in Hd. apply andb_prop in Hd as [Hc Hs]. eauto.
Qed.

Lemma c_str_app a b :
  all_chars (fun c => negb (Ascii.eqb c NUL)) a = true ->
  c_str (a ++ b) = (a ++ c_str b)%string.
Proof.
  induction a as [|c a IH]; cbn; [done|].
  intros [Hc Ha]%andb_prop. apply negb_true_iff in Hc. rewrite Hc.
  by rewrite IH.
Qed.

Lemma skip_space_spaces k s : skip_space (spaces k ++ s) = skip_space s.
Proof. induction k as [|k IH]; cbn; [done|]. exact IH. Qed.

Lemma scan_long_decimal n tail :
  (match tail with String c _ => isdigit c = false | EmptyString => True end) ->
  scan_long (decimal n ++ tail) = Converted (clamp_long (Z.of_N n)) tail.
Proof.
  intros Htail.
  pose proof (scan_digits_decimal n tail Htail) as Hscan.
  destruct (decimal_unfold n) as (c & s & E & Hc & _).
  rewrite E in *. cbn [String.append] in *.
  destruct (isdigit_facts c Hc) as (Hsp & Hminus & Hplus & _).
  unfold scan_long. cbn [skip_space]. rewrite Hsp, Hminus, Hplus, Hc.
  by rewrite Hscan.
Qed.


Lemma spaces_no_nul k :
  all_chars (fun c => negb (Ascii.eqb c NUL)) (spaces k) = true.
Proof. induction k as [|k IH]; cbn; [done|]. exact IH. Qed.

Lemma decimal_no_nul n :
  all_chars (fun c => negb (Ascii.eqb c NUL)) (decimal n) = true.
Proof.
  destruct (decimal_unfold n) as (c & s & E & Hc & Hs). rewrite E.
  apply (all_chars_weaken isdigit).
  - intros x Hx. by destruct (isdigit_facts x Hx) as (_ & _ & _ & -> & _).
  - cbn. by rewrite Hc, Hs.
Qed.


(** *** [sscanf] on a line of the file *)

Lemma sscanf_from_literal lit fmt input assigned :
  all_chars ordinary lit = true ->
  sscanf_from (lit ++ fmt) (lit ++ input) assigned
  = sscanf_from fmt input assigned.
Proof.
  induction lit as [|c lit IH]; [done|].
  cbn [all_chars String.append sscanf_from].
  intros [[Hpct Hsp]%andb_prop Hlit]%andb_prop.
  apply negb_true_iff in Hpct, Hsp.
  by rewrite Hpct, Hsp, Ascii.eqb_refl, IH.
Qed.

Lemma sscanf_from_mismatch lit fmt input :
  all_chars ordinary lit = true ->
  String.prefix lit input = false ->
  exists n, sscanf_from (lit ++ fmt) input [] = (n, []) /\ n <> 1.
Proof.
  revert input. induction lit as [|c lit IH]; intros input.
  { intros _ H. destruct input; discriminate H. }
  cbn [all_chars String.append sscanf_from].
  intros [[Hpct Hsp]%andb_prop Hlit]%andb_prop.
  apply negb_true_iff in Hpct, Hsp. rewrite Hpct, Hsp.
  destruct input as [|x input]; cbn [String.prefix].
  - intros _. exists EOF. by split.
  - destruct (ascii_dec c x) as [->|Hne].
    + rewrite Ascii.eqb_refl. by apply IH.
    + intros _. assert (Ascii.eqb x c = false) as ->.
      { apply Ascii.eqb_neq. congruence. }
      exists 0. by split.
Qed.

Lemma skip_space_decimal n tail :
  skip_space (decimal n ++ tail) = (decimal n ++ tail)%string.
Proof.
  destruct (decimal_unfold n) as (c & s & E & Hc & _). rewrite E.
  cbn [String.append skip_space].
  by destruct (isdigit_facts c Hc) as (-> & _).
Qed.

Lemma sscanf_meminfo_line pad kb :
  sscanf (meminfo_line pad kb ++ String newline "") "MemAvailable: %ld kB"
  = (1, [clamp_long (Z.of_N kb)]).
Proof.
  unfold sscanf, meminfo_line.
  rewrite !string_app_assoc.
  rewrite c_str_app by reflexivity.
  rewrite c_str_app by apply spaces_no_nul.
  rewrite c_str_app by apply decimal_no_nul.
  change (c_str (" kB" ++ String newline ""))
    with (" kB" ++ String newline "")%string.
  change "MemAvailable: %ld kB"%string
    with ("MemAvailable:" ++ String " " (String "%" (String "l" (String "d" " kB"))))%string.
  rewrite sscanf_from_literal by reflexivity.
  cbn [sscanf_from].
  change (Ascii.eqb " " "%") with false.
  change (isspace " ") with true.
  change (Ascii.eqb "%" "%") with true.
  change (Ascii.eqb "l" "l" && Ascii.eqb "d" "d") with true.
  cbv iota.
  rewrite skip_space_spaces, skip_space_decimal.
  rewrite scan_long_decimal by reflexivity.
  reflexivity.
Qed.

Lemma prefix_c_str lit buf :
  String.prefix lit (c_str buf) = true -> String.prefix lit buf = true.
Proof.
  revert lit. induction buf as [|c buf IH]; intros [|a lit]; cbn; try done.
  destruct (Ascii.eqb c NUL); cbn; [done|].
  destruct (ascii_dec a c); [apply IH|done].
Qed.

Lemma prefix_app_newline lit l rest :
  all_chars (fun c => negb (Ascii.eqb c newline)) lit = true ->
  String.prefix lit (l ++ String newline rest) = true ->
  String.prefix lit l = true.
Proof.
  revert l. induction lit as [|a lit IH]; intros l; [by destruct l|].
  cbn [all_chars]. intros [Ha Hlit]%andb_prop.
  apply negb_true_iff, Ascii.eqb_neq in Ha.
  destruct l as [|c l]; cbn.
  - by destruct (ascii_dec a newline).
  - destruct (ascii_dec a c); [by apply IH|done].
Qed.

Lemma sscanf_other_line l tail :
  String.prefix "MemAvailable:" l = false ->
  tail = EmptyString \/ (exists rest, tail = String newline rest) ->
  exists n, sscanf (l ++ tail) "MemAvailable: %ld kB" = (n, []) /\ n <> 1.
Proof.
  intros Hl Htail. unfold sscanf.
  change "MemAvailable: %ld kB"%string
    with ("MemAvailable:" ++ String " " (String "%" (String "l" (String "d" " kB"))))%string.
  apply sscanf_from_mismatch; [reflexivity|].
  apply not_true_is_false. intros Hp%prefix_c_str.
  destruct Htail as [->|[rest ->]].
  - assert (l ++ "" = l)%string as E.
    { clear. induction l as [|c l IH]; cbn; [done|]. by rewrite IH. }
    rewrite E in Hp. congruence.
  - apply prefix_app_newline in Hp; [congruence|reflexivity].
Qed.

(** *** [fgets] cuts the file into its lines *)

Lemma fgets_chars_line l :
  forall room rest,
    (String.length l < room)%nat ->
    all_chars (fun c => negb (Ascii.eqb c newline)) l = true ->
    fgets_chars room (l ++ String newline rest)
    = ((l ++ String newline "")%string, rest).
Proof.
  induction l as [|c l IH]; intros room rest Hlen Hnl.
  - destruct room; [cbn in Hlen; lia|]. cbn. by rewrite Ascii.eqb_refl.
  - destruct room; [cbn in Hlen; lia|].
    cbn in Hnl. apply andb_prop in Hnl as [Hc Hnl].
    apply negb_true_iff in Hc.
    cbn [String.append fgets_chars]. rewrite Hc.
    rewrite IH; [done| cbn in Hlen; lia | done].
Qed.

Lemma fgets_chars_last l :
  forall room,
    (String.length l <= room)%nat ->
    all_chars (fun c => negb (Ascii.eqb c newline)) l = true ->
    fgets_chars room l = (l, EmptyString).
Proof.
  induction l as [|c l IH]; intros room Hlen Hnl.
  - by destruct room.
  - destruct room; [cbn in Hlen; lia|].
    cbn in Hnl. apply andb_prop in Hnl as [Hc Hnl].
    apply negb_true_iff in Hc.
    cbn [fgets_chars]. rewrite Hc.
    rewrite IH; [done| cbn in Hlen; lia | done].
Qed.

Lemma fgets_line l rest :
  is_short_line l = true ->
  fgets 256 (l ++ String newline rest) = Some ((l ++ String newline "")%string, rest).
Proof.
  intros [Hlen Hnl]%andb_prop. apply Nat.ltb_lt in Hlen.
  unfold fgets.
  destruct (l ++ String newline rest)%string eqn:E; [by destruct l|].
  rewrite <- E. f_equal. apply fgets_chars_line; [cbn; lia|done].
Qed.

Lemma fgets_last l :
  l <> EmptyString ->
  is_short_line l = true ->
  fgets 256 l = Some (l, EmptyString).
Proof.
  intros Hne [Hlen Hnl]%andb_prop. apply Nat.ltb_lt in Hlen.
  unfold fgets. destruct l as [|c s] eqn:E; [done|].
  rewrite <- E in *. f_equal. apply fgets_chars_last; [cbn; lia|done].
Qed.

(** *** The loop *)

Lemma while_fgets_end fuel kb : Llama.while_fgets fuel EmptyString kb = kb.
Proof. by destruct fuel. Qed.

Lemma while_fgets_skip before rest kb :
  Forall other_line before ->
  forall fuel,
    (String.length (unlines before ++ rest) <= fuel)%nat ->
    exists fuel',
      (String.length rest <= fuel')%nat /\
      Llama.while_fgets fuel (unlines before ++ rest) kb
      = Llama.while_fgets fuel' rest kb.
Proof.
  intros Hall. induction Hall as [|x xs [Hshort Hother] _ IH]; intros fuel Hfuel.
  - exists fuel. by split.
  - cbn [unlines] in *. rewrite string_app_assoc in *.
    cbn [String.append] in *.
    rewrite string_length_app in Hfuel. cbn [String.length] in Hfuel.
    destruct fuel as [|fuel]; [lia|].
    cbn [Llama.while_fgets]. rewrite fgets_line by done.
    destruct (sscanf_other_line x (String newline "") Hother) as (n & -> & Hn);
      [right; by eexists|].
    cbn [nth]. apply Z.eqb_neq in Hn. rewrite Hn.
    apply IH. lia.
Qed.

Lemma while_fgets_last l kb fuel :
  (String.length l <= fuel)%nat ->
  is_short_line l = true ->
  String.prefix "MemAvailable:" l = false ->
  Llama.while_fgets fuel l kb = kb.
Proof.
  intros Hfuel Hshort Hother.
  destruct fuel as [|fuel]; [done|].
  destruct (string_dec l EmptyString) as [->|Hne]; [done|].
  cbn [Llama.while_fgets]. rewrite fgets_last by done.
  destruct (sscanf_other_line l EmptyString Hother) as (n & E & Hn);
    [by left|].
  assert (l ++ "" = l)%string as El.
  { clear. induction l as [|c l IH]; cbn; [done|]. by rewrite IH. }
  rewrite El in E. rewrite E.
  cbn [nth]. apply Z.eqb_neq in Hn. rewrite Hn.
  apply while_fgets_end.
Qed.

Lemma while_fgets_found pad kb rest fuel :
  (String.length (meminfo_line pad kb ++ String newline rest) <= fuel)%nat ->
  is_short_line (meminfo_line pad kb) = true ->
  Llama.while_fgets fuel (meminfo_line pad kb ++ String newline rest) 0
  = clamp_long (Z.of_N kb).
Proof.
  intros Hfuel Hshort.
  rewrite string_length_app in Hfuel. cbn [String.length] in Hfuel.
  destruct fuel as [|fuel]; [lia|].
  cbn [Llama.while_fgets]. rewrite fgets_line by done.
  by rewrite sscanf_meminfo_line.
Qed.

Lemma fgets_chars_consumes room :
  forall fp line rest,
    fgets_chars room fp = (line, rest) ->
    (String.length line + String.length rest = String.length fp)%nat.
Proof.
  induction room as [|room IH]; intros fp line rest.
  - cbn. intros [= <- <-]. reflexivity.
  - destruct fp as [|c fp]; cbn [fgets_chars].
    + intros [= <- <-]. reflexivity.
    + destruct (Ascii.eqb c newline).
      * intros [= <- <-]. reflexivity.
      * destruct (fgets_chars room fp) as [line' rest'] eqn:E.
        intros [= <- <-]. cbn. by rewrite (IH _ _ _ E).
Qed.

Lemma fgets_chars_stores room c fp :
  fst (fgets_chars (S room) (String c fp)) <> EmptyString.
Proof.
  cbn [fgets_chars]. destruct (Ascii.eqb c newline); [done|].
  by destruct (fgets_chars room fp).
Qed.

Lemma fgets_consumes fp line rest :
  fgets 256 fp = Some (line, rest) ->
  (String.length rest < String.length fp)%nat.
Proof.
  destruct fp as [|c fp]; [done|].
  unfold fgets. change (256 - 1)%nat with (S 254). intros E.
  apply (inj Some) in E.
  pose proof (fgets_chars_consumes _ _ _ _ E) as Hlen.
  pose proof (fgets_chars_stores 254 c fp) as Hline. rewrite E in Hline.
  destruct line; [done|]. cbn [String.length] in *. lia.
Qed.

(** The loop stops at the end of the file or at the [break], never for
    want of fuel. *)
Lemma while_fgets_fuel fuel :
  forall fuel' fp kb,
    (String.length fp <= fuel)%nat ->
    (String.length fp <= fuel')%nat ->
    Llama.while_fgets fuel fp kb = Llama.while_fgets fuel' fp kb.
Proof.
  induction fuel as [|fuel IH]; intros fuel' fp kb Hfuel Hfuel'.
  - destruct fp; [|cbn in Hfuel; lia]. by rewrite !while_fgets_end.
  - destruct fuel' as [|fuel'].
    { destruct fp; [|cbn in Hfuel'; lia]. by rewrite !while_fgets_end. }
    cbn [Llama.while_fgets].
    destruct (fgets 256 fp) as [[line rest]|] eqn:E; [|done].
    apply fgets_consumes in E.
    destruct (sscanf line _) as [n stored].
    destruct (n =? 1); [done|]. apply IH; lia.
Qed.

Lemma clamp_long_id (v : Z) : LONG_MIN <= v <= LONG_MAX -> clamp_long v = v.
Proof. unfold clamp_long. lia. Qed.

Lemma llama_nativeGetAvailableMemory_unfold r (g : Llama.Globals) :
  llama_nativeGetAvailableMemory (mkWorld r g)
  = (match filesystem r "/proc/meminfo" with
     | None => 0
     | Some fp => Z.quot (Llama.while_fgets (String.length fp) fp 0) 1024
     end, mkWorld r g).
Proof.
  unfold Llama.Java_com_pulsenetwork_core_native_LLMInferenceImpl_nativeGetAvailableMemory,
    fopen, fclose.
  destruct r as [bs stale exn log calls rnd fs].
  native_eval. by destruct (fs _).
Qed.

(** * The contract of the adapter operations *)

(** ** Text generation: load, query, unload *)

(** C1, as the code has it: for every model path [nativeLoadModel] returns
    true and leaves the statics alone, so [nativeIsModelLoaded] answers
    after it what it answered before, which is false in a process that
    starts from the initial statics; [nativeIsModelLoaded] is a pure query
    that answers whether [g_model] is non-null; after [nativeUnloadModel]
    it answers false. *)
Theorem load_keeps_handle_unload_clears_it
    (model_path : string) (context_length threads : Z)
    (w : World Llama.Globals) (r : Runtime) :
  let loaded := llama_nativeLoadModel model_path context_length threads w in
  fst loaded = JNI_TRUE
  /\ globals (snd loaded) = globals w
  /\ fst (llama_nativeIsModelLoaded (snd loaded))
     = fst (llama_nativeIsModelLoaded w)
  /\ llama_nativeIsModelLoaded w
     = (negb (Llama.is_null (Llama.g_model (globals w))), w)
  /\ fst (llama_nativeIsModelLoaded
            (snd (llama_nativeLoadModel model_path context_length threads
                    (mkWorld r Llama.initial)))) = JNI_FALSE
  /\ fst (llama_nativeIsModelLoaded
            (snd (llama_nativeUnloadModel (snd loaded)))) = JNI_FALSE.
Proof.
  cbv zeta. rewrite !llama_nativeLoadModel_exec, llama_nativeUnloadModel_exec.
  cbn [fst snd globals].
  repeat split.
Qed.

(** C1 as stated fails: the model file exists, [nativeLoadModel] returns
    true, and [nativeIsModelLoaded] still returns false. *)
Lemma load_then_query_answers_false :
  sample_files "/data/local/tmp/model.gguf" = Some "GGUF"%string
  /\ let w0 := mkWorld sample_runtime Llama.initial in
     let loaded := llama_nativeLoadModel "/data/local/tmp/model.gguf" 2048 4 w0 in
     fst loaded = JNI_TRUE
     /\ fst (llama_nativeIsModelLoaded (snd loaded)) = JNI_FALSE.
Proof. repeat split. Qed.

(** ** Text generation without a model *)

(** C2, as the code has it: for every request and every state of the
    statics, loaded or not, [nativeGenerate] returns the same placeholder
    text as an ordinary result; it raises nothing and does not touch the
    statics. *)
Theorem generate_returns_placeholder
    (prompt : string) (max_tokens : Z) (temperature top_p : jfloat)
    (top_k : Z) (w : World Llama.Globals) :
  let res := llama_nativeGenerate prompt max_tokens temperature top_p top_k w in
  fst res = JString "[JNI Bridge] 模型未实际加载，这是占位响应。"
  /\ pending_exception (runtime (snd res)) = pending_exception (runtime w)
  /\ object_call_failed res = raised w
  /\ globals (snd res) = globals w.
Proof.
  cbv zeta. rewrite llama_nativeGenerate_exec. repeat split.
Qed.

(** C2 as stated fails: with no model loaded [nativeGenerate] hands back
    the placeholder text and signals no failure. *)
Lemma generate_without_model_succeeds :
  let w0 := mkWorld sample_runtime Llama.initial in
  let res := llama_nativeGenerate "你好" 64 (F32 7 10) (F32 9 10) 40 w0 in
  Llama.g_model (globals w0) = Llama.nullptr
  /\ utf_of (fst res) = Some "[JNI Bridge] 模型未实际加载，这是占位响应。"%string
  /\ object_call_failed res = false.
Proof. repeat split. Qed.

(** ** Loading a model that is not there *)

(** C3, as the code has it: for every path, the empty one included, and
    whatever the file system holds, both [nativeLoadModel] entry points
    return true; they raise nothing and leave the statics alone. *)
Theorem load_model_always_reports_success
    (model_path : string) (context_length threads : Z)
    (w : World Llama.Globals) (w' : World Whisper.Globals) :
  let res := llama_nativeLoadModel model_path context_length threads w in
  let res' := whisper_nativeLoadModel model_path w' in
  (fst res = JNI_TRUE /\ flag_call_failed res = raised w
   /\ globals (snd res) = globals w)
  /\ (fst res' = JNI_TRUE /\ flag_call_failed res' = raised w'
      /\ globals (snd res') = globals w').
Proof.
  cbv zeta. rewrite llama_nativeLoadModel_exec, whisper_nativeLoadModel_exec.
  repeat split.
Qed.

(** C3 as stated fails: the empty path and the path of a file that does not
    exist are both accepted, by either adapter. *)
Lemma load_model_accepts_empty_and_missing_paths :
  sample_files "/no/such/model.bin" = None
  /\ flag_call_failed
       (llama_nativeLoadModel "" 2048 4 (mkWorld sample_runtime Llama.initial))
     = false
  /\ flag_call_failed
       (llama_nativeLoadModel "/no/such/model.bin" 2048 4
          (mkWorld sample_runtime Llama.initial))
     = false
  /\ flag_call_failed
       (whisper_nativeLoadModel "" (mkWorld sample_runtime Whisper.initial))
     = false
  /\ flag_call_failed
       (whisper_nativeLoadModel "/no/such/model.bin"
          (mkWorld sample_runtime Whisper.initial))
     = false.
Proof. repeat split. Qed.

(** ** Transcribing a file *)

(** C4, as the code has it: for every file path and language
    [nativeTranscribeFile] returns the null reference, which is how the
    bridge marks the capability as not built; it raises nothing and leaves
    the statics alone. *)
Theorem transcribe_file_returns_null
    (file_path language : string) (w : World Whisper.Globals) :
  let res := whisper_nativeTranscribeFile file_path language w in
  fst res = JNull
  /\ pending_exception (runtime (snd res)) = pending_exception (runtime w)
  /\ globals (snd res) = globals w.
Proof.
  cbv zeta. rewrite whisper_nativeTranscribeFile_exec. repeat split.
Qed.

(** C4 as stated fails: the result is the null reference and no exception
    is pending, so the caller is handed an absent result and nothing else. *)
Lemma transcribe_file_result_is_absent :
  let res := whisper_nativeTranscribeFile "/sdcard/memo.wav" "en"
               (mkWorld sample_runtime Whisper.initial) in
  fst res = JNull /\ raised (snd res) = false.
Proof. repeat split. Qed.

(** ** Streaming against blocking generation *)

(** C5, as the code has it: whatever the prompts and parameters of the two
    calls, the fragments of [nativeGenerateStream] spell one fixed text and
    [nativeGenerate] returns another fixed text; each is deterministic, and
    the two texts differ. *)
Theorem stream_and_generate_texts
    (prompt : string) (max_tokens : Z) (temperature top_p : jfloat)
    (top_k : Z) (w : World Llama.Globals)
    (prompt' : string) (max_tokens' : Z) (temperature' top_p' : jfloat)
    (top_k' : Z) (w' : World Llama.Globals) :
  let streamed :=
    stream_text
      (fst (llama_nativeGenerateStream prompt max_tokens temperature top_p
              top_k w)) in
  let generated :=
    utf_of
      (fst (llama_nativeGenerate prompt' max_tokens' temperature' top_p'
              top_k' w')) in
  streamed = Some "这是模拟的流式响应。"%string
  /\ generated = Some "[JNI Bridge] 模型未实际加载，这是占位响应。"%string
  /\ streamed <> generated.
Proof.
  cbv zeta.
  rewrite llama_nativeGenerateStream_exec, llama_nativeGenerate_exec.
  repeat split. discriminate.
Qed.

(** C5 as stated fails: for one and the same request the concatenated
    fragments are not the text [nativeGenerate] returns. *)
Lemma stream_concatenation_differs_from_generate :
  let w0 := mkWorld sample_runtime Llama.initial in
  stream_text
    (fst (llama_nativeGenerateStream "你好" 64 (F32 7 10) (F32 9 10) 40 w0))
  <> utf_of (fst (llama_nativeGenerate "你好" 64 (F32 7 10) (F32 9 10) 40 w0)).
Proof. discriminate. Qed.

(** ** Embeddings *)

(** C6, as the code has it: for every text and every state of the statics,
    loaded or not, [nativeGetEmbedding] returns a vector of 384 elements,
    each computed from one value of [rand]; 384 is also the [embeddingSize]
    that [nativeGetModelInfo] reports in every state.  The call raises
    nothing and leaves the statics alone. *)
Theorem embedding_has_384_elements
    (text : string) (w w' : World Llama.Globals) :
  let res := llama_nativeGetEmbedding text w in
  vector_length (fst res) = Some 384%nat
  /\ embeddingSize (fst (llama_nativeGetModelInfo w')) = Some 384
  /\ fst res
     = JFloatArray
         (map (embedding_entry (libc_rand (runtime w)) (rand_calls (runtime w)))
              (seq 0 384))
  /\ object_call_failed res = raised w
  /\ globals (snd res) = globals w.
Proof.
  cbv zeta. rewrite llama_nativeGetEmbedding_exec, llama_nativeGetModelInfo_exec.
  cbn [fst snd vector_length]. rewrite length_map, length_seq.
  repeat split.
Qed.

(** C6 as stated fails: with no model loaded [nativeGetEmbedding] does not
    fail, it returns a vector of 384 elements. *)
Lemma embedding_without_model_succeeds :
  let w0 := mkWorld sample_runtime Llama.initial in
  let res := llama_nativeGetEmbedding "hello" w0 in
  Llama.g_model (globals w0) = Llama.nullptr
  /\ object_call_failed res = false
  /\ vector_length (fst res) = Some 384%nat.
Proof. vm_compute. repeat split. Qed.

(** ** Transcribing samples *)



(** The language of the result is read from the characters of [language]
    after [ReleaseStringUTFChars] gave them back. *)
Remark transcribe_reads_language_after_release
    (samples : list jfloat) (language : string) (w : World Whisper.Globals) :
  let res := whisper_nativeTranscribe samples language w in
  stale_reads (runtime (snd res)) = S (stale_reads (runtime w)).
Proof. cbv zeta. by rewrite whisper_nativeTranscribe_exec. Qed.

(** ** Stopping a generation *)

(** C9: after one call or more of [nativeStopGeneration], from any state,
    [g_model] and [g_ctx] are what they were and [g_is_generating] is
    false, so a further call changes no static; no call raises anything,
    and all that happens besides is one line in logcat per call. *)
Theorem stop_generation_is_idempotent
    (n : nat) (w : World Llama.Globals) :
  let stop := fun w => snd (llama_nativeStopGeneration w) in
  let w' := Nat.iter (S n) stop w in
  Llama.g_model (globals w') = Llama.g_model (globals w)
  /\ Llama.g_ctx (globals w') = Llama.g_ctx (globals w)
  /\ Llama.g_is_generating (globals w') = false
  /\ globals (stop w') = globals w'
  /\ globals w' = globals (stop w)
  /\ raised w' = raised w
  /\ runtime w'
     = with_logcat
         (logcat (runtime w) ++ replicate (S n) (info "Generation stopped" []))
         (runtime w).
Proof.
  cbv zeta. induction n as [|n IH].
  - change (Nat.iter 1 ?f ?x) with (f x). cbv beta.
    rewrite !llama_nativeStopGeneration_exec.
    destruct w as [[bs stale exn log calls rnd fs] g].
    unfold marshalled, with_logcat, with_buffers. cbn.
    rewrite app_nil_r. repeat split.
  - destruct IH as (Hm & Hc & Hg & _ & Hs & He & Hr).
    change (Nat.iter (S (S n)) ?f ?x) with (f (Nat.iter (S n) f x)).
    set (w1 := Nat.iter (S n) _ w) in *. clearbody w1.
    rewrite !llama_nativeStopGeneration_exec in *.
    cbn [fst snd globals runtime Llama.g_model Llama.g_ctx
         Llama.g_is_generating] in *.
    rewrite Hm, Hc, Hr.
    unfold raised in *. cbn [runtime] in *. rewrite Hr in He.
    destruct w as [[bs stale exn log calls rnd fs] g].
    unfold marshalled, with_logcat, with_buffers in *. cbn in *.
    rewrite app_nil_r, <- app_assoc.
    change (?x :: replicate n ?x) with (replicate (S n) x).
    rewrite <- replicate_cons_app.
    repeat split.
Qed.

(** ** The fragments of the stream *)

(** C10: whatever the prompt, [max_tokens] (zero and negative values
    included), temperature, top-p and top-k, and whatever the state,
    [nativeGenerateStream] returns the same array of five fragments. *)
Theorem generate_stream_is_constant
    (prompt : string) (max_tokens : Z) (temperature top_p : jfloat)
    (top_k : Z) (w : World Llama.Globals) :
  fst (llama_nativeGenerateStream prompt max_tokens temperature top_p top_k w)
  = JObjectArray "java/lang/String"
      [JString "这是"; JString "模拟"; JString "的"; JString "流式";
       JString "响应。"].
Proof. by rewrite llama_nativeGenerateStream_exec. Qed.

(** ** Available memory *)

(** C8: [nativeGetAvailableMemory] returns the megabytes the file
    [/proc/meminfo] reports, that is the kilobytes of its [MemAvailable]
    line divided by 1024, and 0 when the file cannot be opened or has no
    such line; it changes nothing. *)
Theorem available_memory_is_reported_megabytes
    (r : Runtime) (g : Llama.Globals) (file : option string) (mb : Z) :
  filesystem r "/proc/meminfo" = file ->
  reported_megabytes file mb ->
  llama_nativeGetAvailableMemory (mkWorld r g) = (mb, mkWorld r g).
Proof.
  intros Hfile Hshape.
  rewrite llama_nativeGetAvailableMemory_unfold, Hfile. f_equal.
  destruct Hshape as [|lines last Hall|before pad kb rest Hall Hshort Hkb].
  - reflexivity.
  - apply Forall_app in Hall as [Hlines Hlast].
    apply Forall_singleton in Hlast as [Hshort Hother].
    destruct (while_fgets_skip lines last 0 Hlines
                (String.length (unlines lines ++ last)) (Nat.le_refl _))
      as (fuel & Hfuel & ->).
    by rewrite while_fgets_last.
  - destruct (while_fgets_skip before
                (meminfo_line pad kb ++ String newline rest) 0 Hall
                (String.length
                   (unlines before ++ meminfo_line pad kb
                      ++ String newline rest)) (Nat.le_refl _))
      as (fuel & Hfuel & ->).
    rewrite while_fgets_found by done.
    rewrite clamp_long_id by (unfold LONG_MIN; lia).
    apply Z.quot_div_nonneg; lia.
Qed.

Lemma available_memory_of_sample :
  filesystem sample_runtime "/proc/meminfo" = Some sample_meminfo
  /\ reported_megabytes (Some sample_meminfo) 1792
  /\ llama_nativeGetAvailableMemory (mkWorld sample_runtime Llama.initial)
     = (1792, mkWorld sample_runtime Llama.initial).
Proof.
  assert (Hfile : filesystem sample_runtime "/proc/meminfo"
                  = Some sample_meminfo) by reflexivity.
  assert (Hshape : reported_megabytes (Some sample_meminfo) 1792).
  { change 1792 with (Z.of_N 1835468 / 1024).
    apply (meminfo_with_line
             ["MemTotal:        3882464 kB"%string;
              "MemFree:          177416 kB"%string]
             4 1835468 (unlines ["Buffers:           40128 kB"%string])).
    - repeat constructor.
    - reflexivity.
    - vm_compute. discriminate. }
  split; [exact Hfile|]. split; [exact Hshape|].
  exact (available_memory_is_reported_megabytes sample_runtime Llama.initial
           (Some sample_meminfo) 1792 Hfile Hshape).
Defined.

(** The same figure by running the code on the sample file. *)
Example available_memory_of_sample_computed :
  fst (llama_nativeGetAvailableMemory (mkWorld sample_runtime Llama.initial))
  = 1792.
Proof. vm_compute. reflexivity. Qed.

(** * Beyond the single call *)

Example descriptor_arities :
  descriptor_arity "(Ljava/lang/String;JIILjava/lang/String;J)V" = Some 6%nat
  /\ descriptor_arity "(Ljava/util/List;JLjava/lang/String;F)V" = Some 4%nat
  /\ descriptor_arity "(Ljava/lang/String;JJF)V" = Some 4%nat
  /\ descriptor_arity "()V" = Some 0%nat
  /\ descriptor_arity "(Ljava/lang/Object;)Z" = Some 1%nat
  /\ descriptor_arity "([F[Ljava/lang/String;I)V" = Some 3%nat.
Proof. repeat split. Qed.

(** ** What one call does to each part of the world *)

Ltac llama_call_cases c w :=
  destruct w as [r g]; destruct c; cbn [llama_perform];
  rewrite ?llama_nativeLoadModel_exec, ?llama_nativeGenerate_exec,
    ?llama_nativeGenerateStream_exec, ?llama_nativeStopGeneration_exec,
    ?llama_nativeGetEmbedding_exec, ?llama_nativeGetModelInfo_exec,
    ?llama_nativeUnloadModel_exec, ?llama_nativeGetAvailableMemory_unfold;
  cbn [fst snd runtime globals].

Ltac whisper_call_cases c w :=
  destruct w as [r g]; destruct c; cbn [whisper_perform];
  rewrite ?whisper_nativeLoadModel_exec, ?whisper_nativeTranscribe_exec,
    ?whisper_nativeTranscribeFile_exec, ?whisper_nativeUnloadModel_exec;
  cbn [fst snd runtime globals].

Lemma llama_perform_globals c w :
  globals (llama_perform c w)
  = Llama.mkGlobals
      (if is_llama_unload c then Llama.nullptr
       else Llama.g_model (globals w))
      (if is_llama_unload c then Llama.nullptr
       else Llama.g_ctx (globals w))
      (if is_llama_stop c then false
       else Llama.g_is_generating (globals w)).
Proof. llama_call_cases c w; by destruct g. Qed.

Lemma whisper_perform_globals c w :
  globals (whisper_perform c w)
  = Whisper.mkGlobals
      (if is_whisper_unload c then Whisper.nullptr
       else Whisper.g_whisper_ctx (globals w)).
Proof. whisper_call_cases c w; by destruct g. Qed.

Lemma llama_perform_stale_reads c w :
  stale_reads (runtime (llama_perform c w)) = stale_reads (runtime w).
Proof. llama_call_cases c w; reflexivity. Qed.

Lemma whisper_perform_stale_reads c w :
  stale_reads (runtime (whisper_perform c w))
  = ((if is_transcribe c then 1 else 0) + stale_reads (runtime w))%nat.
Proof. whisper_call_cases c w; reflexivity. Qed.

Lemma llama_perform_released c w :
  all_released (runtime w) -> all_released (runtime (llama_perform c w)).
Proof.
  llama_call_cases c w; try done; intros Hr;
    by apply marshalled_all_released.
Qed.

Lemma whisper_perform_released c w :
  all_released (runtime w) -> all_released (runtime (whisper_perform c w)).
Proof.
  whisper_call_cases c w; try done; intros Hr;
    by apply marshalled_all_released.
Qed.

Lemma llama_run_cons c cs w :
  llama_run (c :: cs) w = llama_run cs (llama_perform c w).
Proof. reflexivity. Qed.

Lemma whisper_run_cons c cs w :
  whisper_run (c :: cs) w = whisper_run cs (whisper_perform c w).
Proof. reflexivity. Qed.

(** ** The statics over a whole session *)

(** X1: after any sequence of calls of the text-generation adapter, from
    any state, [g_model] and [g_ctx] are null if [nativeUnloadModel] was
    among the calls and untouched otherwise, and [g_is_generating] is false
    if [nativeStopGeneration] was among them and untouched otherwise; no
    call ever stores a handle or raises the flag.  In a process that starts
    from the initial statics [nativeIsModelLoaded] therefore answers false
    after every sequence of calls. *)
Theorem llama_statics_after_any_calls
    (cs : list llama_call) (w : World Llama.Globals) (r : Runtime) :
  globals (llama_run cs w)
  = Llama.mkGlobals
      (if existsb is_llama_unload cs then Llama.nullptr
       else Llama.g_model (globals w))
      (if existsb is_llama_unload cs then Llama.nullptr
       else Llama.g_ctx (globals w))
      (if existsb is_llama_stop cs then false
       else Llama.g_is_generating (globals w))
  /\ fst (llama_nativeIsModelLoaded (llama_run cs (mkWorld r Llama.initial)))
     = JNI_FALSE.
Proof.
  assert (Hglobals : forall cs w,
    globals (llama_run cs w)
    = Llama.mkGlobals
        (if existsb is_llama_unload cs then Llama.nullptr
         else Llama.g_model (globals w))
        (if existsb is_llama_unload cs then Llama.nullptr
         else Llama.g_ctx (globals w))
        (if existsb is_llama_stop cs then false
         else Llama.g_is_generating (globals w))).
  { clear. induction cs as [|c cs IH]; intros w.
    - cbn. by destruct (globals w).
    - rewrite llama_run_cons, IH, llama_perform_globals.
      cbn [existsb Llama.g_model Llama.g_ctx Llama.g_is_generating].
      by destruct (is_llama_unload c), (is_llama_stop c),
           (existsb is_llama_unload cs), (existsb is_llama_stop cs). }
  split; [apply Hglobals|].
  change (fst (llama_nativeIsModelLoaded ?w))
    with (negb (Llama.is_null (Llama.g_model (globals w)))).
  rewrite Hglobals. cbn.
  by destruct (existsb is_llama_unload cs).
Qed.

(** X2: after any sequence of calls of the speech adapter, from any state,
    [g_whisper_ctx] is null if [nativeUnloadModel] was among the calls and
    untouched otherwise; started from the initial statics,
    [nativeIsModelLoaded] answers false after every sequence of calls. *)
Theorem whisper_statics_after_any_calls
    (cs : list whisper_call) (w : World Whisper.Globals) (r : Runtime) :
  globals (whisper_run cs w)
  = Whisper.mkGlobals
      (if existsb is_whisper_unload cs then Whisper.nullptr
       else Whisper.g_whisper_ctx (globals w))
  /\ fst (whisper_nativeIsModelLoaded
            (whisper_run cs (mkWorld r Whisper.initial)))
     = JNI_FALSE.
Proof.
  assert (Hglobals : forall cs w,
    globals (whisper_run cs w)
    = Whisper.mkGlobals
        (if existsb is_whisper_unload cs then Whisper.nullptr
         else Whisper.g_whisper_ctx (globals w))).
  { clear. induction cs as [|c cs IH]; intros w.
    - cbn. by destruct (globals w).
    - rewrite whisper_run_cons, IH, whisper_perform_globals.
      cbn [existsb Whisper.g_whisper_ctx].
      by destruct (is_whisper_unload c), (existsb is_whisper_unload cs). }
  split; [apply Hglobals|].
  change (fst (whisper_nativeIsModelLoaded ?w))
    with (negb (Whisper.is_null (Whisper.g_whisper_ctx (globals w)))).
  rewrite Hglobals. cbn.
  by destruct (existsb is_whisper_unload cs).
Qed.

(** ** What a session leaves behind *)

Lemma llama_run_released cs :
  forall w, all_released (runtime w) -> all_released (runtime (llama_run cs w)).
Proof.
  induction cs as [|c cs IH]; intros w Hw; [done|].
  rewrite llama_run_cons. by apply IH, llama_perform_released.
Qed.

Lemma whisper_run_released cs :
  forall w, all_released (runtime w) -> all_released (runtime (whisper_run cs w)).
Proof.
  induction cs as [|c cs IH]; intros w Hw; [done|].
  rewrite whisper_run_cons. by apply IH, whisper_perform_released.
Qed.

(** X4: every entry point gives back, before it returns, each string and
    array buffer it borrowed from the virtual machine: if nothing is held
    before a sequence of calls of the two adapters, nothing is held after
    it. *)
Theorem sessions_hold_no_buffer
    (cs : list llama_call) (cs' : list whisper_call) (r : Runtime)
    (g : Llama.Globals) (g' : Whisper.Globals) :
  all_released r ->
  all_released
    (runtime (whisper_run cs' (mkWorld (runtime (llama_run cs (mkWorld r g))) g'))).
Proof.
  intros Hr. apply whisper_run_released. cbn [runtime].
  by apply llama_run_released.
Qed.

Lemma sessions_hold_no_buffer_sample :
  all_released sample_runtime
  /\ all_released
       (runtime
          (whisper_run
             [SpeechLoadModel "/data/ggml-base.bin";
              SpeechTranscribe [F32 1 2; F32 (-1) 4] "zh";
              SpeechTranscribeFile "/sdcard/memo.wav" "en"]
             (mkWorld
                (runtime
                   (llama_run
                      [CallLoadModel "/data/local/tmp/model.gguf" 2048 4;
                       CallGenerate "hi" 16 (F32 7 10) (F32 9 10) 40;
                       CallGetEmbedding "hi"; CallUnloadModel]
                      (mkWorld sample_runtime Llama.initial)))
                Whisper.initial))).
Proof.
  assert (H0 : all_released sample_runtime) by constructor.
  split; [exact H0|].
  exact (sessions_hold_no_buffer _ _ sample_runtime Llama.initial
           Whisper.initial H0).
Defined.

(** X5: the text-generation adapter never reads a buffer it has released;
    the speech adapter does so once in every [nativeTranscribe], which
    builds the language of its result from characters already handed
    back, and nowhere else. *)
Theorem reads_after_release
    (cs : list llama_call) (w : World Llama.Globals)
    (cs' : list whisper_call) (w' : World Whisper.Globals) :
  stale_reads (runtime (llama_run cs w)) = stale_reads (runtime w)
  /\ stale_reads (runtime (whisper_run cs' w'))
     = (length (List.filter is_transcribe cs')
        + stale_reads (runtime w'))%nat.
Proof.
  split.
  - revert w. induction cs as [|c cs IH]; intros w; [done|].
    by rewrite llama_run_cons, IH, llama_perform_stale_reads.
  - revert w'. induction cs' as [|c cs' IH]; intros w'; [done|].
    rewrite whisper_run_cons, IH, whisper_perform_stale_reads.
    cbn [List.filter]. destruct (is_transcribe c); cbn [length]; lia.
Qed.

(** X6: what is to be generated, embedded or transcribed never reaches
    logcat: the lines [nativeGenerate] and [nativeGenerateStream] write are
    the same for every prompt, [nativeGetEmbedding] writes none, and the
    line of [nativeTranscribe] carries of the samples only their number. *)
Theorem inputs_do_not_reach_logcat
    (prompt prompt' text language : string) (max_tokens top_k : Z)
    (temperature top_p : jfloat) (samples : list jfloat)
    (w : World Llama.Globals) (w' : World Whisper.Globals) :
  logcat (runtime (snd (llama_nativeGenerate prompt max_tokens temperature
                          top_p top_k w)))
  = logcat (runtime (snd (llama_nativeGenerate prompt' max_tokens temperature
                            top_p top_k w)))
  /\ logcat (runtime (snd (llama_nativeGenerateStream prompt max_tokens
                            temperature top_p top_k w)))
     = logcat (runtime (snd (llama_nativeGenerateStream prompt' max_tokens
                               temperature top_p top_k w)))
  /\ logcat (runtime (snd (llama_nativeGetEmbedding text w)))
     = logcat (runtime w)
  /\ logcat (runtime (snd (whisper_nativeTranscribe samples language w')))
     = logcat (runtime (snd (whisper_nativeTranscribe
                               (replicate (length samples) (F32 0 1))
                               language w'))).
Proof.
  rewrite !llama_nativeGenerate_exec, !llama_nativeGenerateStream_exec,
    llama_nativeGetEmbedding_exec, !whisper_nativeTranscribe_exec.
  cbn [snd runtime]. rewrite length_replicate.
  repeat split.
  unfold marshalled. cbn [logcat with_logcat with_rand_calls].
  apply app_nil_r.
Qed.

(** X7: the queries change nothing, not even logcat: after
    [nativeIsModelLoaded] of either adapter, [nativeGetModelInfo] and
    [nativeGetAvailableMemory] the world is what it was, whatever the state
    and whatever [/proc/meminfo] holds; and [nativeGetModelInfo] gives the
    same answer in every state. *)
Theorem queries_change_nothing
    (w v : World Llama.Globals) (w' : World Whisper.Globals) :
  snd (llama_nativeIsModelLoaded w) = w
  /\ snd (llama_nativeGetModelInfo w) = w
  /\ snd (llama_nativeGetAvailableMemory w) = w
  /\ snd (whisper_nativeIsModelLoaded w') = w'
  /\ fst (llama_nativeGetModelInfo w) = fst (llama_nativeGetModelInfo v).
Proof.
  rewrite !llama_nativeGetModelInfo_exec.
  destruct w as [r g]. rewrite llama_nativeGetAvailableMemory_unfold.
  repeat split.
Qed.

(** ** The embedding vector *)

(** X8: when [rand] yields no negative number, as libc has it, every
    element of the vector [nativeGetEmbedding] returns is the quotient by
    100 of an integer from -100 to 99, so it lies in [-1, 0.99]; all 384
    elements are written, none is left indeterminate. *)
Theorem embedding_elements_in_range
    (text : string) (w : World Llama.Globals) :
  (forall n, 0 <= libc_rand (runtime w) n) ->
  exists ks : list Z,
    fst (llama_nativeGetEmbedding text w)
    = JFloatArray (map (fun k => F32 k 100) ks)
    /\ length ks = 384%nat
    /\ Forall (fun k => -100 <= k <= 99) ks.
Proof.
  intros Hrand. rewrite llama_nativeGetEmbedding_exec. cbn [fst].
  exists (map (fun i => Z.rem (libc_rand (runtime w)
                                 (rand_calls (runtime w) + i)%nat) 200 - 100)
              (seq 0 384)).
  split; [by rewrite map_map|].
  split; [by rewrite length_map, length_seq|].
  apply Forall_map, Forall_forall. intros i _. cbn beta.
  pose proof (Z.rem_bound_pos
                (libc_rand (runtime w) (rand_calls (runtime w) + i)%nat) 200
                (Hrand _)).
  lia.
Qed.

Lemma embedding_elements_in_range_sample :
  (forall n, 0 <= libc_rand sample_runtime n)
  /\ exists ks : list Z,
       fst (llama_nativeGetEmbedding "hello"
              (mkWorld sample_runtime Llama.initial))
       = JFloatArray (map (fun k => F32 k 100) ks)
       /\ length ks = 384%nat
       /\ Forall (fun k => -100 <= k <= 99) ks.
Proof.
  assert (H0 : forall n, 0 <= libc_rand sample_runtime n).
  { intros n. cbn. lia. }
  split; [exact H0|].
  exact (embedding_elements_in_range "hello"
           (mkWorld sample_runtime Llama.initial) H0).
Defined.

(** X9: the vector does not depend on the text: in one and the same world
    any two texts get the same vector, which is made of the next 384 values
    of [rand]; a second call, for the same text or another, is given the
    384 values after those. *)
Theorem embedding_ignores_its_text
    (text text' : string) (w : World Llama.Globals) :
  let first := llama_nativeGetEmbedding text w in
  fst first = fst (llama_nativeGetEmbedding text' w)
  /\ rand_calls (runtime (snd first)) = (rand_calls (runtime w) + 384)%nat
  /\ fst (llama_nativeGetEmbedding text' (snd first))
     = JFloatArray
         (map (embedding_entry (libc_rand (runtime w))
                               (rand_calls (runtime w) + 384))
              (seq 0 384)).
Proof.
  cbv zeta. rewrite !llama_nativeGetEmbedding_exec.
  repeat split.
Qed.

(** ** A line longer than the buffer *)

Lemma string_app_nil (s : string) : (s ++ "")%string = s.
Proof. induction s as [|c s IH]; cbn; [done|]. by rewrite IH. Qed.

Lemma fgets_chars_full piece :
  forall more,
    all_chars (fun c => negb (Ascii.eqb c newline)) piece = true ->
    fgets_chars (String.length piece) (piece ++ more) = (piece, more).
Proof.
  induction piece as [|c piece IH]; intros more Hnl; [done|].
  cbn in Hnl. apply andb_prop in Hnl as [Hc Hnl].
  apply negb_true_iff in Hc.
  cbn [String.length String.append fgets_chars]. rewrite Hc.
  by rewrite IH.
Qed.

Lemma prefix_app_long lit :
  forall a x,
    (String.length lit <= String.length a)%nat ->
    String.prefix lit (a ++ x) = String.prefix lit a.
Proof.
  induction lit as [|c lit IH]; intros a x Hlen.
  - by destruct a, x.
  - destruct a as [|d a]; [cbn in Hlen; lia|].
    cbn [String.append String.prefix].
    destruct (ascii_dec c d); [|done].
    apply IH. cbn in Hlen. lia.
Qed.

(** X10: [nativeGetAvailableMemory] reads the file in pieces of at most 255
    characters, so a line longer than that is not seen as one line: when
    255 characters without a newline come before [MemAvailable:] on a line,
    the line does not start with [MemAvailable:] and yet the figure after it
    is what the call returns. *)
Theorem long_line_is_read_in_pieces
    (r : Runtime) (g : Llama.Globals) (before : list string)
    (piece : string) (pad : nat) (kb : N) (rest : string) :
  filesystem r "/proc/meminfo"
  = Some (unlines before ++ piece ++ meminfo_line pad kb
            ++ String newline rest)%string ->
  Forall other_line before ->
  String.length piece = 255%nat ->
  all_chars (fun c => negb (Ascii.eqb c newline)) piece = true ->
  String.prefix "MemAvailable:" piece = false ->
  is_short_line (meminfo_line pad kb) = true ->
  Z.of_N kb <= LONG_MAX ->
  String.prefix "MemAvailable:" (piece ++ meminfo_line pad kb) = false
  /\ llama_nativeGetAvailableMemory (mkWorld r g)
     = (Z.of_N kb / 1024, mkWorld r g).
Proof.
  intros Hfile Hbefore Hlen Hnl Hpiece Hshort Hkb.
  split.
  { rewrite prefix_app_long; [done|]. rewrite Hlen. cbn. lia. }
  rewrite llama_nativeGetAvailableMemory_unfold, Hfile. f_equal.
  destruct (while_fgets_skip before
              (piece ++ meminfo_line pad kb ++ String newline rest) 0 Hbefore
              (String.length
                 (unlines before ++ piece ++ meminfo_line pad kb
                    ++ String newline rest)) (Nat.le_refl _))
    as (fuel & Hfuel & ->).
  rewrite string_length_app, Hlen in Hfuel.
  destruct fuel as [|fuel]; [lia|].
  cbn [Llama.while_fgets].
  assert (Hgets : fgets 256 (piece ++ meminfo_line pad kb ++ String newline rest)
                  = Some (piece, (meminfo_line pad kb ++ String newline rest)%string)).
  { unfold fgets.
    destruct (piece ++ meminfo_line pad kb ++ String newline rest)%string
      eqn:E; [destruct piece; [cbn in Hlen; lia | discriminate E]|].
    rewrite <- E. change (256 - 1)%nat with 255%nat. rewrite <- Hlen.
    by rewrite fgets_chars_full. }
  rewrite Hgets.
  destruct (sscanf_other_line piece EmptyString Hpiece) as (n & E & Hn);
    [by left|].
  rewrite string_app_nil in E. rewrite E.
  cbn [nth]. apply Z.eqb_neq in Hn. rewrite Hn.
  rewrite while_fgets_found by (done || lia).
  rewrite clamp_long_id by (unfold LONG_MIN; lia).
  apply Z.quot_div_nonneg; lia.
Qed.

Lemma long_line_is_read_in_pieces_sample :
  String.prefix "MemAvailable:" (filler 255 "x" ++ meminfo_line 1 2048) = false
  /\ llama_nativeGetAvailableMemory (mkWorld long_line_runtime Llama.initial)
     = (2, mkWorld long_line_runtime Llama.initial).
Proof.
  change 2 with (Z.of_N 2048 / 1024).
  apply (long_line_is_read_in_pieces long_line_runtime Llama.initial []
           (filler 255 "x") 1 2048 EmptyString).
  - reflexivity.
  - constructor.
  - reflexivity.
  - reflexivity.
  - reflexivity.
  - reflexivity.
  - vm_compute. discriminate.
Defined.

(** ** Constructors and their descriptors *)

(** X11: [nativeTranscribe] looks its result constructor up under a
    descriptor of four parameters and calls it with five arguments, for
    every input; [nativeGetModelInfo] hands its constructor as many
    arguments as the descriptor declares. *)
Theorem transcribe_constructor_arity
    (samples : list jfloat) (language : string)
    (w' : World Whisper.Globals) (w : World Llama.Globals) :
  (exists ctor actuals,
      fst (whisper_nativeTranscribe samples language w') = JObject ctor actuals
      /\ descriptor_arity (m_sig ctor) = Some 4%nat
      /\ length actuals = 5%nat
      /\ applied_as_declared ctor actuals = false)
  /\ (exists ctor actuals,
         fst (llama_nativeGetModelInfo w) = JObject ctor actuals
         /\ descriptor_arity (m_sig ctor) = Some 6%nat
         /\ length actuals = 6%nat
         /\ applied_as_declared ctor actuals = true).
Proof.
  rewrite whisper_nativeTranscribe_exec, llama_nativeGetModelInfo_exec.
  split; do 2 eexists; repeat split.
Qed.

(** ** Less than a megabyte *)

Lemma available_memory_of_line
    (r : Runtime) (g : Llama.Globals) (before : list string)
    (pad : nat) (kb : N) (rest : string) :
  filesystem r "/proc/meminfo"
  = Some (unlines before ++ meminfo_line pad kb ++ String newline rest)%string ->
  Forall other_line before ->
  is_short_line (meminfo_line pad kb) = true ->
  Z.of_N kb <= LONG_MAX ->
  llama_nativeGetAvailableMemory (mkWorld r g)
  = (Z.of_N kb / 1024, mkWorld r g).
Proof.
  intros Hfile Hbefore Hshort Hkb.
  rewrite llama_nativeGetAvailableMemory_unfold, Hfile. f_equal.
  destruct (while_fgets_skip before
              (meminfo_line pad kb ++ String newline rest) 0 Hbefore
              (String.length
                 (unlines before ++ meminfo_line pad kb
                    ++ String newline rest)) (Nat.le_refl _))
    as (fuel & Hfuel & ->).
  rewrite while_fgets_found by done.
  rewrite clamp_long_id by (unfold LONG_MIN; lia).
  apply Z.quot_div_nonneg; lia.
Qed.

(** X12: the division by 1024 rounds down, so when the kernel reports less
    than 1024 kB available [nativeGetAvailableMemory] returns 0, the very
    value it returns when the file cannot be opened. *)
Theorem under_a_megabyte_reads_as_zero
    (r r' : Runtime) (g : Llama.Globals) (before : list string)
    (pad : nat) (kb : N) (rest : string) :
  filesystem r "/proc/meminfo"
  = Some (unlines before ++ meminfo_line pad kb ++ String newline rest)%string ->
  Forall other_line before ->
  is_short_line (meminfo_line pad kb) = true ->
  (kb < 1024)%N ->
  filesystem r' "/proc/meminfo" = None ->
  fst (llama_nativeGetAvailableMemory (mkWorld r g)) = 0
  /\ fst (llama_nativeGetAvailableMemory (mkWorld r' g)) = 0.
Proof.
  intros Hfile Hbefore Hshort Hkb Hnone. split.
  - rewrite (available_memory_of_line r g before pad kb rest)
      by (done || unfold LONG_MAX; lia).
    cbn [fst]. apply Z.div_small. lia.
  - by rewrite llama_nativeGetAvailableMemory_unfold, Hnone.
Qed.

Lemma under_a_megabyte_reads_as_zero_sample :
  fst (llama_nativeGetAvailableMemory
         (mkWorld low_memory_runtime Llama.initial)) = 0
  /\ fst (llama_nativeGetAvailableMemory
            (mkWorld (fresh (fun n => Z.of_nat n) (fun _ => None))
                     Llama.initial)) = 0.
Proof.
  apply (under_a_megabyte_reads_as_zero low_memory_runtime
           (fresh (fun n => Z.of_nat n) (fun _ => None)) Llama.initial
           ["MemTotal:        3882464 kB"%string] 4 512 EmptyString).
  - reflexivity.
  - repeat constructor.
  - reflexivity.
  - reflexivity.
  - reflexivity.
Defined.
